(** * The benchmark aggregation pipeline of [plotting_comprehensive.py]

    A shallow embedding of the data preparation and aggregation code of the
    script (loading, field derivation, grouping, pivoting, the speedup join
    and the top-level driver) together with the properties of it that the
    specification states.

    Conventions of the embedding:
    - a pandas [DataFrame] is the list of its rows, in row order, and no cell
      of a key column is missing;
    - Python exceptions, [print] and [savefig] are effects of a small
      trace-and-exception monad [M]; what [pd.read_csv] returns and which
      files can be written are parameters of the script;
    - the script with its effects is modelled with the measurements
      ([ExecutionTime(ms)], [MemoryUsage(MB)]) as exact rationals ([Qc]).
      What is stated on that model is about rows, groups, keys, files and
      exceptions, and does not depend on the arithmetic of the means;
    - the values that the script computes, means and speedups, are modelled
      in module [F64] over IEEE 754 binary64 numbers, with the summation that
      pandas uses for the mean of a group; what is stated about values is
      stated there;
    - the calls that only style a chart (titles, axis labels, grids, legends)
      are left to the rendering library and do not appear. *)

From Stdlib Require Import QArith Qcanon Ascii SpecFloat.
From stdpp Require Import list sorting strings numbers pretty.

Open Scope string_scope.

(** ** Exceptions *)

Inductive exn : Type :=
| ValueError (msg : string)
| TypeError (msg : string)
| IndexError (msg : string)
| OSError (msg : string).

Global Instance exn_eq_dec : EqDecision exn.
Proof. solve_decision. Defined.

(** [str(e)] *)
Definition exn_str (e : exn) : string :=
  match e with
  | ValueError msg | TypeError msg | IndexError msg | OSError msg => msg
  end.

(** ** Python primitives *)

Module Py.

(** [s.split(sep)] for a one-character separator: never empty, [""] splits
    into [[""]]. *)
Fixpoint split (sep : Ascii.ascii) (s : string) : list string :=
  match s with
  | "" => [""]
  | String c s' =>
      let rest := split sep s' in
      if Ascii.eqb c sep then "" :: rest
      else match rest with
           | [] => [String c ""]
           | tok :: toks => String c tok :: toks
           end
  end.

(** [sep.join(l)] *)
Fixpoint join (sep : string) (l : list string) : string :=
  match l with
  | [] => ""
  | x :: l' =>
      match l' with
      | [] => x
      | _ :: _ => x ++ sep ++ join sep l'
      end
  end.

(** [sub in s], also [Series.str.contains(sub)] for a pattern without regular
    expression metacharacters. *)
Fixpoint str_in (sub s : string) : bool :=
  String.prefix sub s ||
  match s with
  | "" => false
  | String _ s' => str_in sub s'
  end.

(** [s.replace(c, '')] for a one-character [c]. *)
Fixpoint remove_char (c : Ascii.ascii) (s : string) : string :=
  match s with
  | "" => ""
  | String c' s' =>
      if Ascii.eqb c' c then remove_char c s' else String c' (remove_char c s')
  end.

(** The builtins [min] and [max] over the values of an integer column; both
    raise [ValueError] on an empty one (with the message of CPython up to
    version 3.11). *)
Definition min (l : list Z) : exn + Z :=
  match l with
  | [] => inl (ValueError "min() arg is an empty sequence")
  | x :: l' => inr (foldr Z.min x l')
  end.

Definition max (l : list Z) : exn + Z :=
  match l with
  | [] => inl (ValueError "max() arg is an empty sequence")
  | x :: l' => inr (foldr Z.max x l')
  end.

(** [l[0]] and [l[-1]] on the result of [split], which is never empty. *)
Definition first (l : list string) : string := hd "" l.
Definition last (l : list string) : string := List.last l "".

(** [d.get(k, default)] on a dictionary given by its items. *)
Fixpoint dict_get (d : list (string * string)) (k default : string) : string :=
  match d with
  | [] => default
  | (k', v) :: d' => if String.eqb k k' then v else dict_get d' k default
  end.

End Py.

(** ** Values *)

(** A cell that is the result of a division, in the model with exact
    measurements: a finite value, an infinity or not-a-number. *)
Inductive npfloat : Type :=
| Finite (q : Qc)
| PosInf
| NegInf
| NaN.

Global Instance npfloat_eq_dec : EqDecision npfloat.
Proof. solve_decision. Defined.

(** Division in the model with exact measurements: the exact quotient, and
    as in float64 an infinity of the sign of the dividend at a zero divisor
    and [nan] for [0/0]; nothing is raised.  The float64 quotient that the
    script computes is [F64.div] below. *)
Definition fdiv (a b : Qc) : npfloat :=
  if decide (b = 0%Qc) then
    if decide (a = 0%Qc) then NaN
    else if decide (0 < a)%Qc then PosInf else NegInf
  else Finite (a / b)%Qc.

(** The result of [np.log10] on a finite operand. [Log10 x] stands for the
    real number log10(x) of a positive [x], which is not rational in general
    and is therefore kept symbolic. *)
Inductive log_value : Type :=
| Log10 (x : Qc)
| LogNegInf
| LogNaN.

Global Instance log_value_eq_dec : EqDecision log_value.
Proof. solve_decision. Defined.

(** [np.log10]: the logarithm of a positive number, [-inf] at zero and [nan]
    below zero. With numpy's default error state the last two only emit a
    [RuntimeWarning]; no exception is raised. *)
Definition np_log10 (x : Qc) : log_value :=
  if decide (0 < x)%Qc then Log10 x
  else if decide (x = 0%Qc) then LogNegInf
  else LogNaN.

(** ** Rows *)

(** One line of the benchmark CSV after [pd.read_csv] and [pd.to_numeric]. *)
Record csv_row : Type := CsvRow {
  csv_Algorithm : string;
  csv_Dimension : string;
  csv_Size : Z;
  csv_Distribution : string;
  csv_ExecutionTime : Qc;
  csv_MemoryUsage : Qc
}.

(** One row of the data frame that [load_and_prepare_data] returns. *)
Record row : Type := Row {
  Algorithm : string;
  Dimension : string;
  Size : Z;
  Distribution : string;
  ExecutionTime : Qc;
  MemoryUsage : Qc;
  AlgorithmGroup : string;
  AlgorithmType : string;
  AlgorithmVariant : string;
  LogExecutionTime : log_value;
  AlgorithmName : string
}.

Global Instance csv_row_eq_dec : EqDecision csv_row.
Proof. solve_decision. Defined.
Global Instance row_eq_dec : EqDecision row.
Proof. solve_decision. Defined.

Definition DataFrame : Type := list row.

(** ** Derived fields ([load_and_prepare_data], lines 63-91) *)

Definition algorithm_names : list (string * string) :=
  [ ("CLOSEST_PAIR_NAIVE", "Naive O(n²)");
    ("CLOSEST_PAIR_EFFICIENT", "Divide & Conquer");
    ("CLOSEST_PAIR_KDTREE", "KD-Tree");
    ("CLOSEST_PAIR_ADAPTIVE", "Adaptive");
    ("DIAMETER_NAIVE", "Naive O(n²)");
    ("DIAMETER_CONCURRENT", "Concurrent");
    ("DIAMETER_QUICKHULL", "QuickHull") ].

(** [algorithm_names.get(x, x)] *)
Definition algorithm_name (x : string) : string :=
  Py.dict_get algorithm_names x x.

(** ['Closest Pair' if 'CLOSEST_PAIR' in x else 'Diameter'] *)
Definition algorithm_group (x : string) : string :=
  if Py.str_in "CLOSEST_PAIR" x then "Closest Pair" else "Diameter".

(** [x.split('_')[0] if x.split('_')[0] == 'DIAMETER'
     else '_'.join(x.split('_')[0:2])] *)
Definition algorithm_type (x : string) : string :=
  if String.eqb (Py.first (Py.split "_"%char x)) "DIAMETER"
  then Py.first (Py.split "_"%char x)
  else Py.join "_" (take 2 (Py.split "_"%char x)).

(** [x.split('_')[-1] if x.split('_')[0] == 'DIAMETER'
     else x.split('_')[-1]] *)
Definition algorithm_variant (x : string) : string :=
  if String.eqb (Py.first (Py.split "_"%char x)) "DIAMETER"
  then Py.last (Py.split "_"%char x)
  else Py.last (Py.split "_"%char x).

Definition derive (c : csv_row) : row :=
  {| Algorithm := csv_Algorithm c;
     Dimension := csv_Dimension c;
     Size := csv_Size c;
     Distribution := csv_Distribution c;
     ExecutionTime := csv_ExecutionTime c;
     MemoryUsage := csv_MemoryUsage c;
     AlgorithmGroup := algorithm_group (csv_Algorithm c);
     AlgorithmType := algorithm_type (csv_Algorithm c);
     AlgorithmVariant := algorithm_variant (csv_Algorithm c);
     LogExecutionTime := np_log10 (csv_ExecutionTime c);
     AlgorithmName := algorithm_name (csv_Algorithm c) |}.

(** The identifier without its last [_]-separated token, the reading of
    "stripped of its trailing variant suffix" that the specification gives
    for the algorithm family: ['_'.join(x.split('_')[:-1])]. *)
Definition strip_variant_suffix (x : string) : string :=
  Py.join "_" (removelast (Py.split "_"%char x)).

(** ** Group keys

    [groupby] sorts the group keys ([sort=True] is the default), tuples of
    several key columns lexicographically.  [Ord] is the interface of a key
    type, a decidable order; [OrdLaws] says that the order is total. *)

Class Ord (K : Type) `{EqDecision K} : Type := {
  kle : relation K;
  kle_dec :: RelDecision kle
}.

Class OrdLaws (K : Type) `{Ord K} : Prop := {
  kle_po :: PartialOrder (kle (K:=K));
  kle_total :: Total (kle (K:=K))
}.

Global Instance string_Ord : Ord string :=
  {| kle := String.le |}.

Global Instance Z_Ord : Ord Z :=
  {| kle := Z.le |}.

Definition prod_kle `{Ord A} `{Ord B} : relation (A * B) :=
  λ p1 p2, if decide (p1.1 = p2.1) then kle p1.2 p2.2 else kle p1.1 p2.1.

Global Instance prod_kle_dec `{Ord A} `{Ord B} :
  RelDecision (@prod_kle A _ _ B _ _).
Proof.
  intros [a1 b1] [a2 b2]. unfold prod_kle. simpl.
  destruct (decide (a1 = a2)); apply _.
Defined.

Global Instance prod_Ord `{Ord A} `{Ord B} : Ord (A * B) :=
  {| kle := prod_kle |}.

(** ** pandas operations *)

Module Pd.

(** [Series.unique()]: the distinct values in order of first appearance. *)
Fixpoint unique `{EqDecision A} (l : list A) : list A :=
  match l with
  | [] => []
  | x :: l' => x :: filter (λ y, y ≠ x) (unique l')
  end.

(** [Series.max()] of an integer column: [None] stands for the [nan] of an
    empty column. *)
Definition series_max (l : list Z) : option Z :=
  match l with
  | [] => None
  | x :: l' => Some (foldr Z.max x l')
  end.

Definition sum (l : list Qc) : Qc := foldr Qcplus 0%Qc l.

(** The mean of the values of a group in exact arithmetic. A group of
    [groupby] is never empty (lemma [group_nonempty] below), so the value at
    [[]] is never used.  The float64 mean that pandas computes is [F64.mean]
    below. *)
Definition mean (l : list Qc) : Qc :=
  (sum l / Qc_of_Z (Z.of_nat (length l)))%Qc.

(** The sorted distinct keys of [df.groupby(keys)]. *)
Definition group_keys {R} `{Ord K} (key : R → K) (df : list R) : list K :=
  merge_sort kle (remove_dups (key <$> df)).

(** The rows of the group of key [k]. *)
Definition group {R} `{EqDecision K} (key : R → K) (k : K) (df : list R) : list R :=
  filter (λ r, key r = k) df.

(** [df.groupby(keys)[val].mean().reset_index()]: one row per distinct key,
    in key order, with the mean of [val] over the group. *)
Definition groupby_mean {R} `{Ord K} (key : R → K) (val : R → Qc)
    (df : list R) : list (K * Qc) :=
  (λ k, (k, mean (val <$> group key k df))) <$> group_keys key df.

(** The table that [DataFrame.pivot] builds: sorted distinct index and column
    labels, and one cell per pair, [None] (a [nan]) where no row has it. *)
Record pivot_table (Ix Col : Type) : Type := PivotTable {
  pv_index : list Ix;
  pv_columns : list Col;
  pv_cells : list (list (option Qc))
}.
Global Arguments PivotTable {Ix Col} _ _ _.
Global Arguments pv_index {Ix Col} _.
Global Arguments pv_columns {Ix Col} _.
Global Arguments pv_cells {Ix Col} _.

Definition cell `{EqDecision Ix} `{EqDecision Col} (t : list (Ix * Col * Qc))
    (i : Ix) (c : Col) : option Qc :=
  snd <$> head (filter (λ x, x.1 = (i, c)) t).

Definition pivot_cells `{Ord Ix} `{Ord Col} (t : list (Ix * Col * Qc)) :
    pivot_table Ix Col :=
  let index := merge_sort kle (remove_dups ((λ x, x.1.1) <$> t)) in
  let columns := merge_sort kle (remove_dups ((λ x, x.1.2) <$> t)) in
  PivotTable index columns ((λ i, (λ c, cell t i c) <$> columns) <$> index).

(** [DataFrame.pivot(index, columns, values)]: raises [ValueError] when two
    rows have the same index and column labels. *)
Definition pivot `{Ord Ix} `{Ord Col} (t : list (Ix * Col * Qc)) :
    exn + pivot_table Ix Col :=
  if decide (NoDup (fst <$> t)) then inr (pivot_cells t)
  else inl (ValueError "Index contains duplicate entries, cannot reshape").

(** [Series.iloc[0]] *)
Definition iloc0 {A} (l : list A) : exn + A :=
  match l with
  | [] => inl (IndexError "single positional indexer is out-of-bounds")
  | x :: _ => inr x
  end.

(** [pd.merge(left, right[['Size', value]], on='Size')]: the inner join, each
    left row paired with every right row of the same size, in the order of the
    left rows. *)
Definition merge_on_size {L} (size_of : L → Z) (left : list L)
    (right : list (Z * Qc)) : list (L * Qc) :=
  l ← left; (λ r, (l, r.2)) <$> filter (λ r, r.1 = size_of l) right.

End Pd.

(** ** Effects

    What a run of the script does that can be observed: the lines it prints,
    the traceback it prints, and the figures it saves, each with the artists
    drawn on every one of its axes. *)

Inductive artist : Type :=
| Curve (label : string) (points : list (Z * npfloat))
    (* [ax.plot] or [ax.loglog] of a column against [Size] *)
| Reference (lo hi : Z)
    (* the three dashed complexity curves over [np.linspace(lo, hi, 100)] *)
| Bars (t : Pd.pivot_table string string)
    (* [pivot_data.plot(kind='bar')] *)
| Heatmap (t : Pd.pivot_table Z string).
    (* [sns.heatmap(pivot_data)] *)

Definition figure : Type := list (list artist).

Inductive event : Type :=
| Print (msg : string)
| Traceback (e : exn)
| SaveFig (path : string) (fig : figure).

(** A computation that has run: the events it produced, and the exception it
    raised or the value it returned. *)
Record M (A : Type) : Type := Run {
  trace : list event;
  outcome : exn + A
}.
Global Arguments Run {A} _ _.
Global Arguments trace {A} _.
Global Arguments outcome {A} _.

Definition ret {A} (x : A) : M A := Run [] (inr x).

Definition bind {A B} (m : M A) (f : A → M B) : M B :=
  match outcome m with
  | inl e => Run (trace m) (inl e)
  | inr x => Run (trace m ++ trace (f x)) (outcome (f x))
  end.

Notation "'let*' x := m 'in' k" := (bind m (λ x, k))
  (at level 10, x name, m at level 100, k at level 200,
   format "'[v' 'let*'  x  :=  m  'in' '/' k ']'").
Notation "m >> k" := (bind m (λ _, k))
  (at level 100, k at level 200, right associativity).

Definition raise {A} (e : exn) : M A := Run [] (inl e).

Definition emit (ev : event) : M unit := Run [ev] (inr tt).

(** A library call that returns or raises. *)
Definition lift {A} (r : exn + A) : M A := Run [] r.

(** [try: body except Exception as e: handler(e)] *)
Definition try_except {A} (body : M A) (handler : exn → M A) : M A :=
  match outcome body with
  | inl e => Run (trace body ++ trace (handler e)) (outcome (handler e))
  | inr x => body
  end.

(** [for x in l: body(x)]; [continue] is the end of the body. *)
Fixpoint for_ {A} (l : list A) (body : A → M unit) : M unit :=
  match l with
  | [] => ret tt
  | x :: l' => body x >> for_ l' body
  end.

Definition continue : M unit := ret tt.

Definition print (msg : string) : M unit := emit (Print msg).

Global Instance pivot_table_eq_dec `{EqDecision Ix} `{EqDecision Col} :
  EqDecision (Pd.pivot_table Ix Col).
Proof. solve_decision. Defined.
Global Instance artist_eq_dec : EqDecision artist.
Proof. solve_decision. Defined.
Global Instance event_eq_dec : EqDecision event.
Proof. solve_decision. Defined.

(** ** The script *)

Definition IMAGES_DIR : string := "benchmark_charts".

Definition dimensions : list string := ["TWO_D"; "THREE_D"].
Definition algo_groups : list string := ["Closest Pair"; "Diameter"].

(** ['2D' if dimension == 'TWO_D' else '3D'] *)
Definition dim_label_of (dimension : string) : string :=
  if String.eqb dimension "TWO_D" then "2D" else "3D".

(** ['CLOSEST_PAIR' if algo_group == 'Closest Pair' else 'DIAMETER'] *)
Definition marker_of (algo_group : string) : string :=
  if String.eqb algo_group "Closest Pair" then "CLOSEST_PAIR" else "DIAMETER".

(** The file that [find_latest_benchmark_file] returns: its glob pattern is a
    literal path and its fallback is the same path, so the result does not
    depend on the file system. *)
Definition find_latest_benchmark_file : string :=
  "/Users/dylancanning/IdeaProjects/Practica_Cluster_De_Punts/benchmark_comprehensive_20250415_175837.csv".

(** Lines 162-164 and 476-478: the rows of the largest size of the data
    frame. *)
Definition largest_data (df : DataFrame) : DataFrame :=
  let max_size := Pd.series_max (Size <$> df) in
  filter (λ r, Some (Size r) = max_size) df.

(** Lines 352-370, and again 525-536 and 548-559: the speedup of [algo] over
    [naive_algo] on the rows [data] of a grouped table, as the pairs
    (Size, Speedup) of the merged table. [L] is the type of the rows of the
    grouped table, read through its columns [Algorithm], [Size] and
    [ExecutionTime(ms)]. *)
Definition speedup_points {L} (algorithm_of : L → string) (size_of : L → Z)
    (time_of : L → Qc) (naive_algo : string) (data : list L) (algo : string) :
    list (Z * npfloat) :=
  let naive_data := filter (λ x, algorithm_of x = naive_algo) data in
  let algo_data := filter (λ x, algorithm_of x = algo) data in
  let merged_data :=
    Pd.merge_on_size size_of algo_data
      ((λ x, (size_of x, time_of x)) <$> naive_data) in
  (λ '(x, t_naive), (size_of x, fdiv t_naive (time_of x))) <$> merged_data.

(** Lines 355-374: the speedups of all the algorithms of [data] but the naive
    one, in order of first appearance. *)
Definition speedup_result {L} (algorithm_of : L → string) (size_of : L → Z)
    (time_of : L → Qc) (naive_algo : string) (data : list L) :
    list (string * list (Z * npfloat)) :=
  (λ algo,
     (algo, speedup_points algorithm_of size_of time_of naive_algo data algo))
    <$> filter (λ algo, algo ≠ naive_algo) (Pd.unique (algorithm_of <$> data)).

(** The rows of the grouped table of [plot_relative_speedup] (line 324) and
    their columns. *)
Definition speedup_row : Type := string * string * string * Z * string * Qc.

Definition sr_Algorithm : speedup_row → string :=
  λ '(a, name, dim, size, dist, t), a.
Definition sr_Dimension : speedup_row → string :=
  λ '(a, name, dim, size, dist, t), dim.
Definition sr_Size : speedup_row → Z :=
  λ '(a, name, dim, size, dist, t), size.
Definition sr_Distribution : speedup_row → string :=
  λ '(a, name, dim, size, dist, t), dist.
Definition sr_ExecutionTime : speedup_row → Qc :=
  λ '(a, name, dim, size, dist, t), t.

Definition speedup_grouped (df : DataFrame) : list speedup_row :=
  Pd.groupby_mean
    (λ r, (Algorithm r, AlgorithmName r, Dimension r, Size r, Distribution r))
    ExecutionTime df.

(** Lines 328-338: the rows of the grouped table of one dimension and one
    algorithm group, given by its marker. *)
Definition speedup_group_data (df : DataFrame) (dimension marker : string) :
    list speedup_row :=
  let dim_data :=
    filter (λ x, sr_Dimension x = dimension) (speedup_grouped df) in
  filter (λ x, Py.str_in marker (sr_Algorithm x) = true) dim_data.

(** Line 347: those of one distribution. *)
Definition speedup_dist_data (df : DataFrame) (dimension marker dist : string) :
    list speedup_row :=
  filter (λ x, sr_Distribution x = dist) (speedup_group_data df dimension marker).

(** Lines 163-178: the rows of the grouped table of
    [plot_distribution_comparison] of one dimension and one algorithm group. *)
Definition distribution_group_data (df : DataFrame)
    (dimension algo_group : string) : list (string * string * string * Qc) :=
  let grouped :=
    Pd.groupby_mean (λ r, (Algorithm r, Dimension r, Distribution r))
      ExecutionTime (largest_data df) in
  let dim_data := filter (λ '(a, dim, dist, t), dim = dimension) grouped in
  filter (λ '(a, dim, dist, t), Py.str_in (marker_of algo_group) a = true)
    dim_data.

(** Lines 284-298: the same for [plot_performance_heatmap]. *)
Definition heatmap_group_data (df : DataFrame)
    (dimension algo_group : string) :
    list (string * string * string * Z * Qc) :=
  let uniform_data := filter (λ r, Distribution r = "UNIFORM") df in
  let grouped :=
    Pd.groupby_mean
      (λ r, (Algorithm r, AlgorithmName r, Dimension r, Size r))
      ExecutionTime uniform_data in
  let dim_data :=
    filter (λ '(a, name, dim, size, t), dim = dimension) grouped in
  filter (λ '(a, name, dim, size, t),
            Py.str_in (marker_of algo_group) a = true) dim_data.

(** Lines 477-487: the grouped table of [plot_distribution_dashboard]. *)
Definition dashboard_distribution_grouped (df : DataFrame)
    (dimension algo_group : string) : list (string * string * Qc) :=
  let dim_data := filter (λ r, Dimension r = dimension) (largest_data df) in
  let group_data :=
    filter (λ r, Py.str_in (marker_of algo_group) (Algorithm r) = true) dim_data in
  Pd.groupby_mean (λ r, (Algorithm r, Distribution r)) ExecutionTime group_data.

(** [naive_algo] of lines 336 and 339. *)
Definition naive_of (algo_group : string) : string :=
  if String.eqb algo_group "Closest Pair" then "CLOSEST_PAIR_NAIVE"
  else "DIAMETER_NAIVE".

(** [pivot_data.plot(kind='bar')]: pandas raises [TypeError] on a frame
    without columns. *)
Definition plot_bar (t : Pd.pivot_table string string) : exn + artist :=
  if decide (Pd.pv_columns t = []) then inl (TypeError "no numeric data to plot")
  else inr (Bars t).

(** The integers of an [int64] column. *)
Definition int64 (n : Z) : Prop := (- 2 ^ 63 ≤ n < 2 ^ 63)%Z.

(** Lines 140-145 and 461-466: [x_range = np.linspace(lo, hi, 100)] and the
    three dashed reference curves over it.  [lo] and [hi] are Python integers,
    the [min] and [max] of the sizes.  numpy holds an integer that fits
    neither [int64] nor [uint64] as an object; the range is then an array of
    objects, and [np.log(x_range)] raises [TypeError]. *)
Definition reference_curves (lo hi : Z) : exn + artist :=
  if decide ((- 2 ^ 63 ≤ lo < 2 ^ 64)%Z ∧ (- 2 ^ 63 ≤ hi < 2 ^ 64)%Z)
  then inr (Reference lo hi)
  else inl (TypeError "loop of ufunc does not support argument 0 of type float which has no callable log method").

(** The messages that the script prints. *)
Definition loading_message (file_path : string) : string :=
  "Loading benchmark data from: " ++ file_path.
Definition generating_message (n : nat) : string :=
  "Generating plots for " ++ pretty n ++ " benchmark records...".
Definition complete_message : string :=
  "Plotting complete. Check the '" ++ IMAGES_DIR
  ++ "' directory for the generated visualizations.".
Definition error_message (e : exn) : string :=
  "Error during plotting: " ++ exn_str e.

Section World.

(** The world outside the script: what [pd.read_csv] finds at a path, and
    which files [savefig] can write. *)
Variable read_csv : string → exn + list csv_row.
Variable writable : string → bool.

(** [ensure_dir]: the output directory exists afterwards. *)
Definition ensure_dir (directory : string) : M unit := ret tt.

(** [fig.savefig(path)] *)
Definition savefig (path : string) (fig : figure) : M unit :=
  if writable path then emit (SaveFig path fig)
  else raise (OSError path).

Definition load_and_prepare_data (file_path : option string) : M DataFrame :=
  let file_path := default find_latest_benchmark_file file_path in
  print (loading_message file_path) >>
  let* df := lift (read_csv file_path) in
  ret (derive <$> df).

Definition plot_time_complexity_by_dimension (df : DataFrame) : M unit :=
  for_ dimensions (λ dimension,
    let dim_data := filter (λ r, Dimension r = dimension) df in
    let dim_label := dim_label_of dimension in
    for_ algo_groups (λ algo_group,
      let group_data := filter (λ r, AlgorithmGroup r = algo_group) dim_data in
      if decide (length group_data = 0%nat) then continue
      else
        let plot_data :=
          Pd.groupby_mean (λ r, (Algorithm r, Size r)) ExecutionTime group_data in
        let algorithms := Pd.unique ((λ '(a, size, t), a) <$> plot_data) in
        let curves :=
          (λ algo,
             let algo_data := filter (λ '(a, size, t), a = algo) plot_data in
             Curve (algorithm_name algo)
               ((λ '(a, size, t), (size, Finite t)) <$> algo_data))
            <$> algorithms in
        let* lo := lift (Py.min ((λ '(a, size, t), size) <$> plot_data)) in
        let* hi := lift (Py.max ((λ '(a, size, t), size) <$> plot_data)) in
        let* reference := lift (reference_curves lo hi) in
        ensure_dir IMAGES_DIR >>
        savefig (IMAGES_DIR ++ "/" ++ dim_label ++ "_"
                 ++ Py.remove_char " " algo_group ++ "_complexity.png")
          [curves; (curves ++ [reference])%list])).

Definition plot_distribution_comparison (df : DataFrame) : M unit :=
  for_ dimensions (λ dimension,
    let dim_label := dim_label_of dimension in
    for_ algo_groups (λ algo_group,
      let group_data := distribution_group_data df dimension algo_group in
      if decide (length group_data = 0%nat) then continue
      else
        let* pivot_data :=
          lift (Pd.pivot ((λ '(a, dim, dist, t), (a, dist, t)) <$> group_data)) in
        let* bars := lift (plot_bar pivot_data) in
        ensure_dir IMAGES_DIR >>
        savefig (IMAGES_DIR ++ "/" ++ dim_label ++ "_"
                 ++ Py.remove_char " " algo_group ++ "_distributions.png")
          [[bars]])).

Definition plot_memory_usage (df : DataFrame) : M unit :=
  let grouped :=
    Pd.groupby_mean (λ r, (Algorithm r, Dimension r, Size r)) MemoryUsage df in
  for_ dimensions (λ dimension,
    let dim_data := filter (λ '(a, dim, size, m), dim = dimension) grouped in
    let dim_label := dim_label_of dimension in
    for_ algo_groups (λ algo_group,
      let group_data :=
        filter (λ '(a, dim, size, m), Py.str_in (marker_of algo_group) a = true)
          dim_data in
      if decide (length group_data = 0%nat) then continue
      else
        let algorithms := Pd.unique ((λ '(a, dim, size, m), a) <$> group_data) in
        let curves :=
          (λ algo,
             let algo_data := filter (λ '(a, dim, size, m), a = algo) group_data in
             Curve (algorithm_name algo)
               ((λ '(a, dim, size, m), (size, Finite m)) <$> algo_data))
            <$> algorithms in
        ensure_dir IMAGES_DIR >>
        savefig (IMAGES_DIR ++ "/" ++ dim_label ++ "_"
                 ++ Py.remove_char " " algo_group ++ "_memory.png")
          [curves])).

Definition plot_dimension_comparison (df : DataFrame) : M unit :=
  let grouped :=
    Pd.groupby_mean
      (λ r, (Algorithm r, AlgorithmName r, Dimension r, Size r))
      ExecutionTime df in
  for_ (Pd.unique ((λ '(a, name, dim, size, t), a) <$> grouped)) (λ algo,
    let algo_data := filter (λ '(a, name, dim, size, t), a = algo) grouped in
    let* algo_name :=
      lift (Pd.iloc0 ((λ '(a, name, dim, size, t), name) <$> algo_data)) in
    let curves :=
      dimension ← dimensions;
      let dim_data :=
        filter (λ '(a, name, dim, size, t), dim = dimension) algo_data in
      if decide (0 < length dim_data)%nat
      then [Curve (dim_label_of dimension)
              ((λ '(a, name, dim, size, t), (size, Finite t)) <$> dim_data)]
      else [] in
    ensure_dir IMAGES_DIR >>
    savefig (IMAGES_DIR ++ "/" ++ algo ++ "_dimension_comparison.png")
      [curves]).

Definition plot_performance_heatmap (df : DataFrame) : M unit :=
  for_ dimensions (λ dimension,
    let dim_label := dim_label_of dimension in
    for_ algo_groups (λ algo_group,
      let group_data := heatmap_group_data df dimension algo_group in
      if decide (length group_data = 0%nat) then continue
      else
        let* pivot_data :=
          lift (Pd.pivot
                  ((λ '(a, name, dim, size, t), (size, name, t)) <$> group_data)) in
        ensure_dir IMAGES_DIR >>
        savefig (IMAGES_DIR ++ "/" ++ dim_label ++ "_"
                 ++ Py.remove_char " " algo_group ++ "_heatmap.png")
          [[Heatmap pivot_data]])).

(** The body of the two outer loops of [plot_relative_speedup] (lines
    333-390) for one dimension and one algorithm group. *)
Definition relative_speedup_of_group (df : DataFrame)
    (dimension algo_group : string) : M unit :=
  let dim_label := dim_label_of dimension in
  let group_data := speedup_group_data df dimension (marker_of algo_group) in
  let naive_algo := naive_of algo_group in
  if decide (length group_data = 0%nat
             ∨ ¬ naive_algo ∈ (sr_Algorithm <$> group_data))
  then continue
  else
    for_ (Pd.unique (sr_Distribution <$> group_data)) (λ dist,
      let dist_data :=
        speedup_dist_data df dimension (marker_of algo_group) dist in
      let curves :=
        (λ '(algo, points), Curve (algorithm_name algo) points)
          <$> speedup_result sr_Algorithm sr_Size sr_ExecutionTime
                naive_algo dist_data in
      ensure_dir IMAGES_DIR >>
      savefig (IMAGES_DIR ++ "/" ++ dim_label ++ "_"
               ++ Py.remove_char " " algo_group ++ "_" ++ dist ++ "_speedup.png")
        [curves]).

Definition plot_relative_speedup (df : DataFrame) : M unit :=
  for_ dimensions (λ dimension,
    for_ algo_groups (λ algo_group,
      relative_speedup_of_group df dimension algo_group)).

(** *** The dashboard *)

Definition plot_time_complexity_dashboard (df : DataFrame)
    (dimension algo_group : string) : M (list artist) :=
  let dim_data := filter (λ r, Dimension r = dimension) df in
  let group_data :=
    filter (λ r, Py.str_in (marker_of algo_group) (Algorithm r) = true) dim_data in
  let plot_data :=
    Pd.groupby_mean (λ r, (Algorithm r, Size r)) ExecutionTime group_data in
  let algorithms := Pd.unique ((λ '(a, size, t), a) <$> plot_data) in
  let curves :=
    (λ algo,
       let algo_data := filter (λ '(a, size, t), a = algo) plot_data in
       Curve (algorithm_name algo)
         ((λ '(a, size, t), (size, Finite t)) <$> algo_data))
      <$> algorithms in
  let* lo := lift (Py.min ((λ '(a, size, t), size) <$> plot_data)) in
  let* hi := lift (Py.max ((λ '(a, size, t), size) <$> plot_data)) in
  let* reference := lift (reference_curves lo hi) in
  ret (curves ++ [reference])%list.

Definition plot_distribution_dashboard (df : DataFrame)
    (dimension algo_group : string) : M (list artist) :=
  let grouped := dashboard_distribution_grouped df dimension algo_group in
  let* pivot_data := lift (Pd.pivot grouped) in
  let* bars := lift (plot_bar pivot_data) in
  ret [bars].

Definition plot_speedup_dashboard (df : DataFrame) (dimension : string) :
    M (list artist) :=
  let dim_data := filter (λ r, Dimension r = dimension) df in
  let uniform_data := filter (λ r, Distribution r = "UNIFORM") dim_data in
  let grouped :=
    Pd.groupby_mean (λ r, (Algorithm r, AlgorithmName r, Size r))
      ExecutionTime uniform_data in
  let cp_data :=
    filter (λ '(a, name, size, t), Py.str_in "CLOSEST_PAIR" a = true) grouped in
  let dm_data :=
    filter (λ '(a, name, size, t), Py.str_in "DIAMETER" a = true) grouped in
  let cp_curves :=
    (λ '(algo, points), Curve ("CP: " ++ algorithm_name algo) points)
      <$> speedup_result (λ '(a, name, size, t), a) (λ '(a, name, size, t), size)
            (λ '(a, name, size, t), t) "CLOSEST_PAIR_NAIVE" cp_data in
  let dm_curves :=
    (λ '(algo, points), Curve ("DM: " ++ algorithm_name algo) points)
      <$> speedup_result (λ '(a, name, size, t), a) (λ '(a, name, size, t), size)
            (λ '(a, name, size, t), t) "DIAMETER_NAIVE" dm_data in
  ret (cp_curves ++ dm_curves)%list.

Definition create_unified_dashboard (df : DataFrame) : M unit :=
  let* ax1 := plot_time_complexity_dashboard df "TWO_D" "Closest Pair" in
  let* ax2 := plot_time_complexity_dashboard df "THREE_D" "Closest Pair" in
  let* ax3 := plot_time_complexity_dashboard df "TWO_D" "Diameter" in
  let* ax4 := plot_time_complexity_dashboard df "THREE_D" "Diameter" in
  let* ax5 := plot_distribution_dashboard df "TWO_D" "Closest Pair" in
  let* ax6 := plot_distribution_dashboard df "THREE_D" "Closest Pair" in
  let* ax7 := plot_speedup_dashboard df "TWO_D" in
  let* ax8 := plot_speedup_dashboard df "THREE_D" in
  ensure_dir IMAGES_DIR >>
  savefig (IMAGES_DIR ++ "/performance_dashboard.png")
    [ax1; ax2; ax3; ax4; ax5; ax6; ax7; ax8].

(** *** The driver *)

(** The seven views in the order in which [main] calls them. *)
Definition views : list (DataFrame → M unit) :=
  [ plot_time_complexity_by_dimension;
    plot_distribution_comparison;
    plot_memory_usage;
    plot_dimension_comparison;
    plot_performance_heatmap;
    plot_relative_speedup;
    create_unified_dashboard ].

(** The body of the [try] statement of [main]. *)
Definition main_body : M unit :=
  let csv_file := find_latest_benchmark_file in
  let* df := load_and_prepare_data (Some csv_file) in
  print (generating_message (length df)) >>
  plot_time_complexity_by_dimension df >>
  plot_distribution_comparison df >>
  plot_memory_usage df >>
  plot_dimension_comparison df >>
  plot_performance_heatmap df >>
  plot_relative_speedup df >>
  create_unified_dashboard df >>
  print complete_message.

Definition main : M unit :=
  try_except main_body
    (λ e, print (error_message e) >> emit (Traceback e)).

End World.

(** The views [l] one after the other on [df], then [k]: the shape of the
    body of [main] after loading. *)
Definition run_all (l : list (DataFrame → M unit)) (df : DataFrame)
    (k : M unit) : M unit :=
  foldr (λ v rest, v df >> rest) k l.

(** The paths of the figures saved in a trace. *)
Definition saved_paths (t : list event) : list string :=
  ev ← t; match ev with SaveFig path _ => [path] | _ => [] end.

(** The execution times observed for an algorithm at a size, within one
    dimension and one distribution. *)
Definition observations (df : DataFrame) (dimension dist algo : string)
    (size : Z) : list Qc :=
  ExecutionTime <$>
    filter (λ r, Algorithm r = algo ∧ Dimension r = dimension ∧ Size r = size
                 ∧ Distribution r = dist) df.

(** The saving of a figure to a PNG file of the output directory. *)
Definition is_chart (ev : event) : Prop :=
  match ev with
  | SaveFig path _ => ∃ stem, path = IMAGES_DIR ++ "/" ++ stem ++ ".png"
  | _ => False
  end.

(** A computation that can only fail because [savefig] cannot write a
    file. *)
Definition fails_only_on_write {A} (writable : string → bool) (m : M A) : Prop :=
  ∀ e, outcome m = inl e → ∃ path, e = OSError path ∧ writable path = false.

(** Lines 503-514: the grouped table of [plot_speedup_dashboard] for one
    dimension, restricted to the algorithms of one group, and its columns. *)
Definition dashboard_speedup_data (df : DataFrame) (dimension marker : string) :
    list (string * string * Z * Qc) :=
  let dim_data := filter (λ r, Dimension r = dimension) df in
  let uniform_data := filter (λ r, Distribution r = "UNIFORM") dim_data in
  let grouped :=
    Pd.groupby_mean (λ r, (Algorithm r, AlgorithmName r, Size r))
      ExecutionTime uniform_data in
  filter (λ '(a, name, size, t), Py.str_in marker a = true) grouped.

Definition ds_Algorithm : string * string * Z * Qc → string :=
  λ '(a, name, size, t), a.
Definition ds_Size : string * string * Z * Qc → Z :=
  λ '(a, name, size, t), size.
Definition ds_ExecutionTime : string * string * Z * Qc → Qc :=
  λ '(a, name, size, t), t.

(** A row with its columns [AlgorithmType], [AlgorithmVariant] and
    [LogExecutionTime] blanked. *)
Definition blank_unused (r : row) : row :=
  {| Algorithm := Algorithm r;
     Dimension := Dimension r;
     Size := Size r;
     Distribution := Distribution r;
     ExecutionTime := ExecutionTime r;
     MemoryUsage := MemoryUsage r;
     AlgorithmGroup := AlgorithmGroup r;
     AlgorithmType := "";
     AlgorithmVariant := "";
     LogExecutionTime := LogNaN;
     AlgorithmName := AlgorithmName r |}.

(** * The aggregation in float64 arithmetic

    The tables of means and the speedups once more, now with the cells of the
    two measurement columns as the script holds them: IEEE 754 binary64
    numbers.  The properties of the values that the script computes (means,
    quotients) are stated on this module. *)

Module F64.

(** A float64: a signed zero, a signed infinity, [nan], or a finite number
    [(-1)^s * m * 2^e], as [SpecFloat] of the Standard Library specifies
    binary floating point. *)
Definition float64 : Type := spec_float.

Definition prec : Z := 53.
Definition emax : Z := 1024.

Global Instance float64_eq_dec : EqDecision float64.
Proof. unfold float64. solve_decision. Defined.

Definition zero : float64 := S754_zero false.
Definition nan : float64 := S754_nan.

(** [x != x] *)
Definition isnan (x : float64) : bool :=
  match x with S754_nan => true | _ => false end.

(** The operations of the processor, rounded to nearest, ties to even. *)
Definition add (x y : float64) : float64 := SFadd prec emax x y.
Definition sub (x y : float64) : float64 := SFsub prec emax x y.
Definition div (x y : float64) : float64 := SFdiv prec emax x y.

(** The float64 of an integer, its nearest float64. *)
Definition of_Z (n : Z) : float64 := binary_normalize prec emax n 0 false.

(** The float64 that a decimal literal with the value [n/10] is read as. *)
Definition tenths (n : Z) : float64 := div (of_Z n) (of_Z 10).

(** The result of [np.log10]. [Log10 x] stands for the logarithm of a
    positive finite [x], which is kept symbolic. *)
Inductive log_value : Type :=
| Log10 (x : float64)
| LogPosInf
| LogNegInf
| LogNaN.

Global Instance log_value_eq_dec : EqDecision log_value.
Proof. solve_decision. Defined.

(** [np.log10]: [-inf] at both zeros, [nan] below zero and at [nan], [inf]
    at [inf]; nothing is raised. *)
Definition np_log10 (x : float64) : log_value :=
  match x with
  | S754_nan => LogNaN
  | S754_zero _ => LogNegInf
  | S754_infinity false => LogPosInf
  | S754_infinity true => LogNaN
  | S754_finite false _ _ => Log10 x
  | S754_finite true _ _ => LogNaN
  end.

(** ** Rows *)

Record csv_row : Type := CsvRow {
  csv_Algorithm : string;
  csv_Dimension : string;
  csv_Size : Z;
  csv_Distribution : string;
  csv_ExecutionTime : float64;
  csv_MemoryUsage : float64
}.

Record row : Type := Row {
  Algorithm : string;
  Dimension : string;
  Size : Z;
  Distribution : string;
  ExecutionTime : float64;
  MemoryUsage : float64;
  AlgorithmGroup : string;
  AlgorithmType : string;
  AlgorithmVariant : string;
  LogExecutionTime : log_value;
  AlgorithmName : string
}.

Global Instance csv_row_eq_dec : EqDecision csv_row.
Proof. solve_decision. Defined.
Global Instance row_eq_dec : EqDecision row.
Proof. solve_decision. Defined.

Definition DataFrame : Type := list row.

(** Lines 63-91 of [load_and_prepare_data]. *)
Definition derive (c : csv_row) : row :=
  {| Algorithm := csv_Algorithm c;
     Dimension := csv_Dimension c;
     Size := csv_Size c;
     Distribution := csv_Distribution c;
     ExecutionTime := csv_ExecutionTime c;
     MemoryUsage := csv_MemoryUsage c;
     AlgorithmGroup := algorithm_group (csv_Algorithm c);
     AlgorithmType := algorithm_type (csv_Algorithm c);
     AlgorithmVariant := algorithm_variant (csv_Algorithm c);
     LogExecutionTime := np_log10 (csv_ExecutionTime c);
     AlgorithmName := algorithm_name (csv_Algorithm c) |}.

(** ** The mean of a group *)

(** One step of the loop of [group_mean], the routine of pandas behind
    [groupby(...).mean()] on a float64 column (pandas/_libs/groupby.pyx): the
    running sum [sumx] is compensated after Kahan,
    [y = val - compensation; t = sumx + y;
     compensation = t - sumx - y; sumx = t],
    and a compensation that is [nan] is reset to zero. *)
Definition kahan_add (acc : float64 * float64) (val : float64) :
    float64 * float64 :=
  let '(sumx, compensation) := acc in
  let y := sub val compensation in
  let t := add sumx y in
  let c := sub (sub t sumx) y in
  (t, if isnan c then zero else c).

(** [group_mean] on the values of one group, in row order: the [nan] values
    are skipped, the others are summed up from [0.0] and the sum is divided
    by their number; a group without any value other than [nan] gives
    [nan]. *)
Definition mean (l : list float64) : float64 :=
  let obs := filter (λ val, isnan val = false) l in
  if decide (obs = []) then nan
  else div (foldl kahan_add (zero, zero) obs).1 (of_Z (Z.of_nat (length obs))).

(** [df.groupby(keys)[val].mean().reset_index()] *)
Definition groupby_mean {R} `{Ord K} (key : R → K) (val : R → float64)
    (df : list R) : list (K * float64) :=
  (λ k, (k, mean (val <$> Pd.group key k df))) <$> Pd.group_keys key df.

(** [pd.merge(left, right[['Size', value]], on='Size')] *)
Definition merge_on_size {L} (size_of : L → Z) (left : list L)
    (right : list (Z * float64)) : list (L * float64) :=
  l ← left; (λ r, (l, r.2)) <$> filter (λ r, r.1 = size_of l) right.

(** ** The tables of the views *)

(** Lines 162-164 and 476-478. *)
Definition largest_data (df : DataFrame) : DataFrame :=
  let max_size := Pd.series_max (Size <$> df) in
  filter (λ r, Some (Size r) = max_size) df.

(** Lines 99-111: [plot_data] of [plot_time_complexity_by_dimension] for one
    dimension and one algorithm group. *)
Definition complexity_plot_data (df : DataFrame)
    (dimension algo_group : string) : list (string * Z * float64) :=
  let dim_data := filter (λ r, Dimension r = dimension) df in
  let group_data := filter (λ r, AlgorithmGroup r = algo_group) dim_data in
  groupby_mean (λ r, (Algorithm r, Size r)) ExecutionTime group_data.

(** Lines 162-167: [grouped] of [plot_distribution_comparison], the table
    that is pivoted at line 185. *)
Definition distribution_grouped (df : DataFrame) :
    list (string * string * string * float64) :=
  groupby_mean (λ r, (Algorithm r, Dimension r, Distribution r))
    ExecutionTime (largest_data df).

(** The rows of the grouped table of [plot_relative_speedup] (line 324) and
    their columns. *)
Definition speedup_row : Type :=
  string * string * string * Z * string * float64.

Definition sr_Algorithm : speedup_row → string :=
  λ '(a, name, dim, size, dist, t), a.
Definition sr_Dimension : speedup_row → string :=
  λ '(a, name, dim, size, dist, t), dim.
Definition sr_Size : speedup_row → Z :=
  λ '(a, name, dim, size, dist, t), size.
Definition sr_Distribution : speedup_row → string :=
  λ '(a, name, dim, size, dist, t), dist.
Definition sr_ExecutionTime : speedup_row → float64 :=
  λ '(a, name, dim, size, dist, t), t.

Definition speedup_grouped (df : DataFrame) : list speedup_row :=
  groupby_mean
    (λ r, (Algorithm r, AlgorithmName r, Dimension r, Size r, Distribution r))
    ExecutionTime df.

(** Lines 328-338. *)
Definition speedup_group_data (df : DataFrame) (dimension marker : string) :
    list speedup_row :=
  let dim_data :=
    filter (λ x, sr_Dimension x = dimension) (speedup_grouped df) in
  filter (λ x, Py.str_in marker (sr_Algorithm x) = true) dim_data.

(** Line 347. *)
Definition speedup_dist_data (df : DataFrame) (dimension marker dist : string) :
    list speedup_row :=
  filter (λ x, sr_Distribution x = dist) (speedup_group_data df dimension marker).

(** Lines 352-370: the merged table of [algo] and the naive algorithm with
    its column [Speedup], the quotient of the two means of each row. *)
Definition speedup_points (naive_algo : string) (data : list speedup_row)
    (algo : string) : list (Z * float64) :=
  let naive_data := filter (λ x, sr_Algorithm x = naive_algo) data in
  let algo_data := filter (λ x, sr_Algorithm x = algo) data in
  let merged_data :=
    merge_on_size sr_Size algo_data
      ((λ x, (sr_Size x, sr_ExecutionTime x)) <$> naive_data) in
  (λ '(x, t_naive), (sr_Size x, div t_naive (sr_ExecutionTime x)))
    <$> merged_data.

(** Lines 355-374: the loop over the algorithms of [dist_data], in order of
    first appearance; the naive algorithm is skipped (lines 356-357). *)
Definition speedup_result (naive_algo : string) (data : list speedup_row) :
    list (string * list (Z * float64)) :=
  (λ algo, (algo, speedup_points naive_algo data algo))
    <$> filter (λ algo, algo ≠ naive_algo) (Pd.unique (sr_Algorithm <$> data)).

(** The execution times observed for an algorithm at a size, within one
    dimension and one distribution, in row order. *)
Definition observations (df : DataFrame) (dimension dist algo : string)
    (size : Z) : list float64 :=
  ExecutionTime <$>
    filter (λ r, Algorithm r = algo ∧ Dimension r = dimension ∧ Size r = size
                 ∧ Distribution r = dist) df.

(** ** Sample data *)

(** The two rows of the scenario of the specification. *)
Definition scenario : list csv_row :=
  [ CsvRow "CLOSEST_PAIR_NAIVE" "TWO_D" 100 "UNIFORM" (of_Z 10) (of_Z 5);
    CsvRow "CLOSEST_PAIR_KDTREE" "TWO_D" 100 "UNIFORM" (of_Z 2) (of_Z 5) ].

(** Repeated measurements: 10, 20 and 60 ms for the naive algorithm, 2 and
    4 ms for the KD-tree. *)
Definition repeated : list csv_row :=
  [ CsvRow "CLOSEST_PAIR_NAIVE" "TWO_D" 100 "UNIFORM" (of_Z 10) (of_Z 5);
    CsvRow "CLOSEST_PAIR_KDTREE" "TWO_D" 100 "UNIFORM" (of_Z 2) (of_Z 5);
    CsvRow "CLOSEST_PAIR_NAIVE" "TWO_D" 100 "UNIFORM" (of_Z 20) (of_Z 5);
    CsvRow "CLOSEST_PAIR_KDTREE" "TWO_D" 100 "UNIFORM" (of_Z 4) (of_Z 5);
    CsvRow "CLOSEST_PAIR_NAIVE" "TWO_D" 100 "UNIFORM" (of_Z 60) (of_Z 5) ].

(** 0.3 ms against 0.1 ms. *)
Definition three_tenths : list csv_row :=
  [ CsvRow "CLOSEST_PAIR_NAIVE" "TWO_D" 100 "UNIFORM" (tenths 3) (of_Z 5);
    CsvRow "CLOSEST_PAIR_KDTREE" "TWO_D" 100 "UNIFORM" (tenths 1) (of_Z 5) ].

(** Three measurements of the naive algorithm, 0.1, 0.2 and 2.7 ms, and one
    of the KD-tree, 1.0 ms; and the same rows with the last two measurements
    of the naive algorithm exchanged. *)
Definition naive_at (t : Z) : csv_row :=
  CsvRow "CLOSEST_PAIR_NAIVE" "TWO_D" 100 "UNIFORM" (tenths t) (of_Z 5).
Definition kdtree_row : csv_row :=
  CsvRow "CLOSEST_PAIR_KDTREE" "TWO_D" 100 "UNIFORM" (of_Z 1) (of_Z 5).

Definition one_order : list csv_row :=
  [naive_at 1; naive_at 2; naive_at 27; kdtree_row].
Definition other_order : list csv_row :=
  [naive_at 1; naive_at 27; naive_at 2; kdtree_row].

End F64.

(** ** Sample data *)

Definition ms (n : Z) : Qc := Q2Qc (inject_Z n).

(** The two rows of the scenario of the specification. *)
Definition scenario : list csv_row :=
  [ CsvRow "CLOSEST_PAIR_NAIVE" "TWO_D" 100 "UNIFORM" (ms 10) (ms 5);
    CsvRow "CLOSEST_PAIR_KDTREE" "TWO_D" 100 "UNIFORM" (ms 2) (ms 5) ].

(** A row whose execution time is zero. *)
Definition zero_time_row : csv_row :=
  CsvRow "CLOSEST_PAIR_NAIVE" "TWO_D" 100 "UNIFORM" 0%Qc (Q2Qc 5).

(** The scenario with one more size that only the baseline has. *)
Definition baseline_only_size : list csv_row :=
  scenario ++ [CsvRow "CLOSEST_PAIR_NAIVE" "TWO_D" 200 "UNIFORM" (ms 40) (ms 5)].

(** A row whose size, 2^64, fits no 64-bit integer. *)
Definition huge_size_row : csv_row :=
  CsvRow "CLOSEST_PAIR_NAIVE" "TWO_D" (2 ^ 64) "UNIFORM" (ms 10) (ms 5).

(** A data frame without any naive algorithm. *)
Definition no_baseline : list csv_row :=
  [ CsvRow "CLOSEST_PAIR_KDTREE" "TWO_D" 100 "UNIFORM" (ms 2) (ms 5);
    CsvRow "CLOSEST_PAIR_ADAPTIVE" "TWO_D" 100 "UNIFORM" (ms 4) (ms 5) ].

(** A world whose CSV file holds the two rows of the scenario and in which
    the memory chart of the first group cannot be written. *)
Definition read_scenario : string → exn + list csv_row := λ _, inr scenario.
Definition memory_chart_locked : string → bool :=
  λ path, negb (String.eqb path "benchmark_charts/2D_ClosestPair_memory.png").

(** * Properties *)

Ltac by_decide := apply (bool_decide_unpack _); vm_compute; exact I.

(** ** Group keys *)

Global Instance string_OrdLaws : OrdLaws string.
Proof. split; apply _. Qed.

Global Instance Z_OrdLaws : OrdLaws Z.
Proof. split; apply _. Qed.

Lemma prod_kle_po `{OrdLaws A} `{OrdLaws B} :
  PartialOrder (@prod_kle A _ _ B _ _).
Proof.
  split; [split|].
  - intros [a b]. unfold prod_kle; simpl. rewrite decide_True by done. done.
  - intros [a1 b1] [a2 b2] [a3 b3]. unfold prod_kle; simpl.
    destruct (decide (a1 = a2)) as [->|N12].
    + destruct (decide (a2 = a3)) as [->|N23]; [|done]. intros; by etrans.
    + destruct (decide (a2 = a3)) as [->|N23].
      * rewrite decide_False by done. done.
      * intros H12 H23. destruct (decide (a1 = a3)) as [->|N13].
        -- destruct N12. by apply (anti_symm kle).
        -- by etrans.
  - intros [a1 b1] [a2 b2]. unfold prod_kle; simpl.
    destruct (decide (a1 = a2)) as [->|N12].
    + rewrite decide_True by done. intros. f_equal. by apply (anti_symm kle).
    + rewrite decide_False by done. intros. destruct N12.
      by apply (anti_symm kle).
Qed.

Lemma prod_kle_total `{OrdLaws A} `{OrdLaws B} :
  Total (@prod_kle A _ _ B _ _).
Proof.
  intros [a1 b1] [a2 b2]. unfold prod_kle; simpl.
  destruct (decide (a1 = a2)) as [->|N12].
  - rewrite decide_True by done. apply total, _.
  - rewrite decide_False by done. apply total, _.
Qed.

Global Instance prod_OrdLaws `{OrdLaws A} `{OrdLaws B} : OrdLaws (A * B).
Proof. split; [apply prod_kle_po | apply prod_kle_total]. Qed.

(** ** Grouping *)

Section Grouping.
Context {R : Type} `{OrdLaws K}.
Implicit Types (key : R → K) (val : R → Qc) (df : list R).

Lemma elem_of_group_keys key df k :
  k ∈ Pd.group_keys key df ↔ ∃ r, r ∈ df ∧ key r = k.
Proof.
  unfold Pd.group_keys. rewrite merge_sort_Permutation, elem_of_remove_dups.
  rewrite list_elem_of_fmap. split.
  - intros (r & -> & Hr). eauto.
  - intros (r & Hr & <-). eauto.
Qed.

Lemma NoDup_group_keys key df : NoDup (Pd.group_keys key df).
Proof.
  unfold Pd.group_keys. rewrite merge_sort_Permutation. apply NoDup_remove_dups.
Qed.

Lemma Sorted_group_keys key df : Sorted kle (Pd.group_keys key df).
Proof. apply (Sorted_merge_sort kle). Qed.

Lemma group_keys_perm key df1 df2 :
  df1 ≡ₚ df2 → Pd.group_keys key df1 = Pd.group_keys key df2.
Proof.
  intros Hp. apply (Sorted_unique kle); [apply Sorted_group_keys..|].
  apply NoDup_Permutation; [apply NoDup_group_keys..|].
  intros k. rewrite !elem_of_group_keys. by setoid_rewrite Hp.
Qed.

Lemma group_perm key k df1 df2 :
  df1 ≡ₚ df2 → Pd.group key k df1 ≡ₚ Pd.group key k df2.
Proof. intros Hp. unfold Pd.group. by rewrite Hp. Qed.

(** The rows of the grouped table: one per key that occurs, with the mean of
    its group. *)
Lemma elem_of_groupby_mean key val df k v :
  (k, v) ∈ Pd.groupby_mean key val df ↔
  (∃ r, r ∈ df ∧ key r = k) ∧ v = Pd.mean (val <$> Pd.group key k df).
Proof.
  unfold Pd.groupby_mean. rewrite list_elem_of_fmap. split.
  - intros (k' & Heq & Hk). simplify_eq. by apply elem_of_group_keys in Hk.
  - intros [Hk ->]. exists k. split; [done|]. by apply elem_of_group_keys.
Qed.

Lemma groupby_mean_keys key val df :
  fst <$> Pd.groupby_mean key val df = Pd.group_keys key df.
Proof.
  unfold Pd.groupby_mean. rewrite <-list_fmap_compose.
  rewrite <-(list_fmap_id (Pd.group_keys key df)) at 2. by apply list_fmap_ext.
Qed.

Lemma NoDup_groupby_mean_keys key val df :
  NoDup (fst <$> Pd.groupby_mean key val df).
Proof. rewrite groupby_mean_keys. apply NoDup_group_keys. Qed.

(** No group of the grouped table is empty. *)
Lemma group_nonempty key val df k v :
  (k, v) ∈ Pd.groupby_mean key val df → Pd.group key k df ≠ [].
Proof.
  rewrite elem_of_groupby_mean. intros [(r & Hr & Hk) _] Hnil.
  assert (r ∈ Pd.group key k df) as Hin by (by apply list_elem_of_filter).
  rewrite Hnil in Hin. by apply not_elem_of_nil in Hin.
Qed.

End Grouping.

(** ** Derived fields *)

Lemma split_nonempty sep s : Py.split sep s ≠ [].
Proof. destruct s as [|c s]; simpl; [done|]. by repeat case_match. Qed.

(** C5, as the claim states it, fails: on an identifier of four tokens the
    family keeps two tokens, not three. *)
Lemma algorithm_type_four_tokens :
  algorithm_type "CLOSEST_PAIR_KD_TREE" = "CLOSEST_PAIR"
  ∧ strip_variant_suffix "CLOSEST_PAIR_KD_TREE" = "CLOSEST_PAIR_KD"
  ∧ algorithm_type "CLOSEST_PAIR_KD_TREE"
    ≠ strip_variant_suffix "CLOSEST_PAIR_KD_TREE".
Proof. by vm_compute. Qed.

(** C5 (amended): the algorithm family of an identifier is [DIAMETER] when its
    first token is [DIAMETER], and its first two tokens joined by [_]
    otherwise.  It is the identifier without its trailing variant suffix when
    the identifier has two tokens and starts with [DIAMETER], or has three
    tokens and does not; that covers every identifier of the table of known
    algorithms. *)
Theorem algorithm_type_spec (x : string) :
  let toks := Py.split "_"%char x in
  algorithm_type x =
    (if String.eqb (Py.first toks) "DIAMETER" then "DIAMETER"
     else Py.join "_" (take 2 toks))
  ∧ ((Py.first toks = "DIAMETER" ∧ length toks = 2%nat)
     ∨ (Py.first toks ≠ "DIAMETER" ∧ length toks = 3%nat) →
     algorithm_type x = strip_variant_suffix x)
  ∧ Forall (λ id, algorithm_type id = strip_variant_suffix id)
      (fst <$> algorithm_names).
Proof.
  intros toks. split; [|split].
  - unfold algorithm_type. fold toks.
    destruct (String.eqb_spec (Py.first toks) "DIAMETER") as [->|]; done.
  - unfold algorithm_type, strip_variant_suffix. fold toks.
    intros [[Hd Hlen]|[Hd Hlen]].
    + rewrite Hd. simpl.
      destruct toks as [|a [|b [|c l]]]; simplify_eq/=. done.
    + destruct (String.eqb_spec (Py.first toks) "DIAMETER") as [|_]; [done|].
      destruct toks as [|a [|b [|c [|d l]]]]; simplify_eq/=. done.
  - by vm_compute; repeat constructor.
Qed.

Lemma algorithm_type_spec_witness :
  algorithm_type "CLOSEST_PAIR_NAIVE" = strip_variant_suffix "CLOSEST_PAIR_NAIVE".
Proof.
  apply (algorithm_type_spec "CLOSEST_PAIR_NAIVE").
  right. split; [by vm_compute | reflexivity].
Defined.

(** ** Loading *)

(** C3, as the claim states it, fails: a record whose execution time is zero
    does not make the derivation fail; the data frame is returned, with [-inf]
    in the logarithm column. *)
Lemma load_zero_time_returns :
  csv_ExecutionTime zero_time_row = 0%Qc
  ∧ outcome (load_and_prepare_data (λ _, inr [zero_time_row]) None)
    = inr [derive zero_time_row]
  ∧ LogExecutionTime (derive zero_time_row) = LogNegInf.
Proof. by vm_compute. Qed.

(** C3 (amended): the derivation never fails.  Whenever the file is read,
    [load_and_prepare_data] returns the derived rows, and the logarithm column
    of a row holds log10 of the execution time when that is positive, [-inf]
    when it is zero and [nan] when it is negative. *)
Theorem load_and_prepare_data_total
    (read_csv : string → exn + list csv_row) (file_path : option string)
    (rows : list csv_row) :
  read_csv (default find_latest_benchmark_file file_path) = inr rows →
  outcome (load_and_prepare_data read_csv file_path) = inr (derive <$> rows)
  ∧ Forall (λ c,
      let t := csv_ExecutionTime c in
      ((0 < t)%Qc → LogExecutionTime (derive c) = Log10 t)
      ∧ (t = 0%Qc → LogExecutionTime (derive c) = LogNegInf)
      ∧ ((t < 0)%Qc → LogExecutionTime (derive c) = LogNaN)) rows.
Proof.
  intros Hread. split.
  - unfold load_and_prepare_data, bind, lift, print, emit, ret. simpl.
    by rewrite Hread.
  - apply Forall_forall. intros c _ t. simpl. unfold np_log10. fold t.
    repeat split.
    + intros Ht. by rewrite decide_True.
    + intros ->. rewrite decide_False by by apply irreflexivity, _.
      by rewrite decide_True.
    + intros Ht. rewrite decide_False by (intros Ht'; by apply (Qclt_not_le _ _ Ht), Qclt_le_weak).
      rewrite decide_False; [done|]. intros ->. by apply (irreflexivity Qclt 0%Qc).
Qed.

Lemma load_and_prepare_data_total_witness :
  outcome (load_and_prepare_data (λ _, inr [zero_time_row]) None)
  = inr (derive <$> [zero_time_row]).
Proof.
  apply (load_and_prepare_data_total (λ _, inr [zero_time_row]) None [zero_time_row]).
  reflexivity.
Defined.

(** ** The largest size *)

Lemma series_max_spec (l : list Z) (m : Z) :
  Pd.series_max l = Some m ↔ m ∈ l ∧ Forall (λ x, (x ≤ m)%Z) l.
Proof.
  destruct l as [|x l]; simpl.
  { split; [done|]. by intros [?%not_elem_of_nil _]. }
  assert (foldr Z.max x l ∈ x :: l ∧ Forall (λ y, (y ≤ foldr Z.max x l)%Z) (x :: l))
    as [Hin Hall].
  { induction l as [|y l [IHin IHall]]; simpl.
    - split; [left|]. by repeat constructor.
    - split.
      + destruct (Z.max_spec y (foldr Z.max x l)) as [[_ ->]|[_ ->]].
        * apply elem_of_cons in IHin as [->|Hin].
          -- apply list_elem_of_here.
          -- by do 2 apply list_elem_of_further.
        * apply list_elem_of_further, list_elem_of_here.
      + inv IHall. repeat constructor; [lia..|].
        eapply Forall_impl; [done|]. simpl. lia. }
  split.
  - by intros [= <-].
  - intros [Hm Hle]. f_equal.
    rewrite Forall_forall in Hall, Hle. apply Z.le_antisymm; auto.
Qed.

Lemma filter_ext_elem_of {A} (P1 P2 : A → Prop)
    `{!∀ x, Decision (P1 x), !∀ x, Decision (P2 x)} (l : list A) :
  (∀ x, x ∈ l → P1 x ↔ P2 x) → filter P1 l = filter P2 l.
Proof.
  induction l as [|a l IH]; intros HP; [done|].
  rewrite !filter_cons.
  rewrite IH by (intros; apply HP; by right).
  destruct (decide (P1 a)) as [H1|H1], (decide (P2 a)) as [H2|H2]; try done.
  - destruct H2. apply HP; [left|done].
  - destruct H1. apply HP; [left|done].
Qed.

(** C6: the rows kept are exactly those rows of the data frame whose size is
    the largest size of the whole data frame, and the empty data frame gives
    the empty data frame. *)
Theorem largest_data_spec (df : DataFrame) :
  largest_data [] = []
  ∧ largest_data df
    = filter (λ r, Forall (λ r', (Size r' ≤ Size r)%Z) df) df.
Proof.
  split; [done|]. unfold largest_data. apply filter_ext_elem_of.
  intros r Hr. rewrite (symmetry_iff (=)), series_max_spec, Forall_fmap.
  split; [by intros [_ ?]|]. intros Hall. split; [|done].
  by apply list_elem_of_fmap_2.
Qed.

(** ** Pivots *)

Lemma NoDup_fst_inj {A B} (l : list (A * B)) (x y : A * B) :
  NoDup (fst <$> l) → x ∈ l → y ∈ l → x.1 = y.1 → x = y.
Proof.
  induction l as [|z l IH]; simpl; intros Hnd Hx Hy Hxy.
  { by apply not_elem_of_nil in Hx. }
  apply NoDup_cons in Hnd as [Hz Hnd].
  apply elem_of_cons in Hx as [->|Hx], Hy as [->|Hy]; [done|..|by apply IH].
  - destruct Hz. rewrite Hxy. by apply list_elem_of_fmap_2.
  - destruct Hz. rewrite <-Hxy. by apply list_elem_of_fmap_2.
Qed.

Lemma NoDup_fst {A B} (l : list (A * B)) : NoDup (fst <$> l) → NoDup l.
Proof. apply NoDup_fmap_1. Qed.

Lemma dict_get_cases (d : list (string * string)) (k : string) :
  (k, Py.dict_get d k k) ∈ d ∨ Py.dict_get d k k = k.
Proof.
  induction d as [|[k' v] d IH]; simpl; [by right|].
  destruct (String.eqb_spec k k') as [->|_].
  - left. apply list_elem_of_here.
  - destruct IH as [IH|IH]; [left|by right]. by apply list_elem_of_further.
Qed.

Ltac known_algorithm H :=
  repeat (apply elem_of_cons in H as [H|H]; [injection H as ?; subst|]);
  [..|by apply not_elem_of_nil in H].

(** Within one algorithm group the display name determines the algorithm:
    the two algorithms that share the name of the naive one are in different
    groups, and no display name of the table contains a group marker. *)
Lemma algorithm_name_inj_in_group (algo_group a1 a2 : string) :
  Py.str_in (marker_of algo_group) a1 = true →
  Py.str_in (marker_of algo_group) a2 = true →
  algorithm_name a1 = algorithm_name a2 → a1 = a2.
Proof.
  unfold marker_of, algorithm_name.
  destruct (dict_get_cases algorithm_names a1) as [H1|H1],
    (dict_get_cases algorithm_names a2) as [H2|H2].
  - known_algorithm H1; known_algorithm H2;
      destruct (String.eqb algo_group "Closest Pair"); intros ? ? ?;
      by simplify_eq.
  - rewrite H2. known_algorithm H1; intros ? Hin <-;
      destruct (String.eqb algo_group "Closest Pair"); by vm_compute in Hin.
  - rewrite H1. known_algorithm H2; intros Hin ? ->;
      destruct (String.eqb algo_group "Closest Pair"); by vm_compute in Hin.
  - rewrite H1, H2. done.
Qed.

(** C9: a grouped table has every key once, so the three pivots of the script
    (distribution comparison, heatmap, distribution dashboard) find no
    duplicate pair of index and column labels and return their table. *)
Theorem pivot_never_duplicates (rows : list csv_row)
    (dimension algo_group : string) :
  let df := derive <$> rows in
  (∀ (K : Type) (eqK : EqDecision K) (ordK : Ord K) (key : row → K)
     (val : row → Qc),
     NoDup (fst <$> Pd.groupby_mean key val df))
  ∧ (let group_data := distribution_group_data df dimension algo_group in
     let t := (λ '(a, dim, dist, t), (a, dist, t)) <$> group_data in
     Pd.pivot t = inr (Pd.pivot_cells t))
  ∧ (let group_data := heatmap_group_data df dimension algo_group in
     let t := (λ '(a, name, dim, size, t), (size, name, t)) <$> group_data in
     Pd.pivot t = inr (Pd.pivot_cells t))
  ∧ (let t := dashboard_distribution_grouped df dimension algo_group in
     Pd.pivot t = inr (Pd.pivot_cells t)).
Proof.
  intros df. split; [|split; [|split]].
  - intros. apply NoDup_groupby_mean_keys.
  - intros group_data t. unfold Pd.pivot. rewrite decide_True; [done|].
    subst t. rewrite <-list_fmap_compose.
    apply NoDup_fmap_2_strong.
    + intros [[[a1 d1] s1] t1] [[[a2 d2] s2] t2] Hx Hy [= -> ->].
      subst group_data. unfold distribution_group_data in Hx, Hy.
      apply list_elem_of_filter in Hx as [_ Hx], Hy as [_ Hy].
      apply list_elem_of_filter in Hx as [-> Hx], Hy as [-> Hy].
      by eapply (NoDup_fst_inj _ _ _ (NoDup_groupby_mean_keys _ _ _) Hx Hy).
    + subst group_data. unfold distribution_group_data.
      do 2 apply NoDup_filter. apply NoDup_fst, NoDup_groupby_mean_keys.
  - intros group_data t. unfold Pd.pivot. rewrite decide_True; [done|].
    subst t. rewrite <-list_fmap_compose.
    apply NoDup_fmap_2_strong.
    + intros [[[[a1 n1] d1] s1] t1] [[[[a2 n2] d2] s2] t2] Hx Hy [= -> ->].
      subst group_data. unfold heatmap_group_data in Hx, Hy.
      apply list_elem_of_filter in Hx as [Hm1 Hx], Hy as [Hm2 Hy].
      apply list_elem_of_filter in Hx as [-> Hx], Hy as [-> Hy].
      assert (a1 = a2) as ->.
      { apply elem_of_groupby_mean in Hx as [(r1 & Hr1 & Hk1) _].
        apply elem_of_groupby_mean in Hy as [(r2 & Hr2 & Hk2) _].
        apply list_elem_of_filter in Hr1 as [_ Hr1], Hr2 as [_ Hr2].
        subst df. apply list_elem_of_fmap in Hr1 as (c1 & -> & _).
        apply list_elem_of_fmap in Hr2 as (c2 & -> & _).
        simpl in Hk1, Hk2. simplify_eq.
        by apply (algorithm_name_inj_in_group algo_group). }
      by eapply (NoDup_fst_inj _ _ _ (NoDup_groupby_mean_keys _ _ _) Hx Hy).
    + subst group_data. unfold heatmap_group_data.
      do 2 apply NoDup_filter. apply NoDup_fst, NoDup_groupby_mean_keys.
  - intros t. unfold Pd.pivot. rewrite decide_True; [done|].
    apply NoDup_groupby_mean_keys.
Qed.

(** ** Speedup *)

Lemma elem_of_unique `{EqDecision A} (l : list A) (x : A) :
  x ∈ Pd.unique l ↔ x ∈ l.
Proof.
  induction l as [|y l IH]; simpl; [done|].
  rewrite !elem_of_cons, list_elem_of_filter, IH.
  destruct (decide (x = y)); tauto.
Qed.

Lemma NoDup_unique `{EqDecision A} (l : list A) : NoDup (Pd.unique l).
Proof.
  induction l as [|y l IH]; simpl; [constructor|].
  apply NoDup_cons. split.
  - rewrite list_elem_of_filter. by intros [? _].
  - by apply NoDup_filter.
Qed.

Lemma elem_of_merge_on_size {L} (size_of : L → Z) (left : list L)
    (right : list (Z * Qc)) (l : L) (t : Qc) :
  (l, t) ∈ Pd.merge_on_size size_of left right ↔
  l ∈ left ∧ (size_of l, t) ∈ right.
Proof.
  unfold Pd.merge_on_size. rewrite list_elem_of_bind. split.
  - intros (l' & Hin & Hl'). apply list_elem_of_fmap in Hin as ([s t'] & Heq & Hr).
    apply list_elem_of_filter in Hr as [Hs Hr]. simpl in *. by simplify_eq.
  - intros [Hl Hr]. exists l. split; [|done].
    apply list_elem_of_fmap. exists (size_of l, t). split; [done|].
    by apply list_elem_of_filter.
Qed.

Section Speedup.
Context {L : Type} (algorithm_of : L → string) (size_of : L → Z)
  (time_of : L → Qc).

(** A point of the speedup of [algo]: a row of [algo] and a row of the naive
    algorithm of the same size, and the quotient of their times. *)
Lemma elem_of_speedup_points naive_algo (data : list L) algo s v :
  (s, v) ∈ speedup_points algorithm_of size_of time_of naive_algo data algo ↔
  ∃ x y, x ∈ data ∧ y ∈ data ∧ algorithm_of x = algo
    ∧ algorithm_of y = naive_algo ∧ size_of y = size_of x
    ∧ s = size_of x ∧ v = fdiv (time_of y) (time_of x).
Proof.
  unfold speedup_points. rewrite list_elem_of_fmap. split.
  - intros ([x t] & Heq & Hin).
    apply elem_of_merge_on_size in Hin as [Hx Hy].
    apply list_elem_of_filter in Hx as [Hax Hx].
    apply list_elem_of_fmap in Hy as (y & Hy1 & Hy).
    apply list_elem_of_filter in Hy as [Hay Hy].
    injection Heq as -> ->. injection Hy1 as Hs Ht.
    exists x, y. by rewrite Ht.
  - intros (x & y & Hx & Hy & Hax & Hay & Hs & -> & ->).
    exists (x, time_of y). split; [done|].
    apply elem_of_merge_on_size. split; [by apply list_elem_of_filter|].
    apply list_elem_of_fmap. exists y. rewrite Hs. split; [done|].
    by apply list_elem_of_filter.
Qed.

Lemma elem_of_speedup_result naive_algo (data : list L) algo pts :
  (algo, pts) ∈ speedup_result algorithm_of size_of time_of naive_algo data ↔
  algo ≠ naive_algo ∧ (∃ x, x ∈ data ∧ algorithm_of x = algo)
  ∧ pts = speedup_points algorithm_of size_of time_of naive_algo data algo.
Proof.
  unfold speedup_result.
  rewrite list_elem_of_fmap. setoid_rewrite list_elem_of_filter.
  setoid_rewrite elem_of_unique. setoid_rewrite list_elem_of_fmap. split.
  - intros (a & Heq & Hne & x & -> & Hx). simplify_eq. eauto.
  - intros (Hne & (x & Hx & <-) & ->). eauto 10.
Qed.

End Speedup.

Lemma observations_nonempty df dimension dist algo size :
  observations df dimension dist algo size ≠ [] ↔
  ∃ r, r ∈ df ∧ Algorithm r = algo ∧ Dimension r = dimension ∧ Size r = size
       ∧ Distribution r = dist.
Proof.
  unfold observations. split.
  - intros Hne.
    destruct (filter _ df) as [|r l] eqn:Hf; [done|].
    assert (r ∈ filter (λ r, Algorithm r = algo ∧ Dimension r = dimension
              ∧ Size r = size ∧ Distribution r = dist) df) as Hr
      by (rewrite Hf; apply list_elem_of_here).
    apply list_elem_of_filter in Hr as [Hc Hr]. eauto.
  - intros (r & Hr & Hc) Hnil. apply fmap_nil_inv in Hnil.
    assert (r ∈ filter (λ r, Algorithm r = algo ∧ Dimension r = dimension
              ∧ Size r = size ∧ Distribution r = dist) df) as Hin
      by (by apply list_elem_of_filter).
    rewrite Hnil in Hin. by apply not_elem_of_nil in Hin.
Qed.

(** The rows of the grouped table of [plot_relative_speedup] for one
    dimension, group and distribution: one per algorithm of the group and size
    with observations, holding the mean of these. *)
Lemma elem_of_speedup_dist_data (rows : list csv_row)
    (dimension marker dist : string) (x : speedup_row) :
  let df := derive <$> rows in
  x ∈ speedup_dist_data df dimension marker dist ↔
  ∃ a s, x = (a, algorithm_name a, dimension, s, dist,
              Pd.mean (observations df dimension dist a s))
    ∧ Py.str_in marker a = true
    ∧ observations df dimension dist a s ≠ [].
Proof.
  intros df. unfold speedup_dist_data, speedup_group_data, speedup_grouped.
  rewrite !list_elem_of_filter.
  destruct x as [[[[[a n] d] s] ds] t]. simpl.
  assert (∀ r, r ∈ df → AlgorithmName r = algorithm_name (Algorithm r)) as Hname.
  { subst df. intros r (c & -> & _)%list_elem_of_fmap. done. }
  split.
  - intros (-> & Hm & -> & Hin).
    apply elem_of_groupby_mean in Hin as [(r & Hr & Hk) ->]. simplify_eq.
    exists (Algorithm r), (Size r). rewrite (Hname r Hr). split; [|split; [done|]].
    + do 2 f_equal. unfold observations, Pd.group. f_equal.
      apply filter_ext_elem_of. intros r' Hr'.
      split; [by intros [= -> _ -> -> ->]|].
      intros (Ha & -> & -> & ->). by rewrite (Hname r' Hr'), Ha.
    + apply observations_nonempty. eauto 10.
  - intros (a' & s' & Heq & Hm & Hobs). simplify_eq.
    apply observations_nonempty in Hobs as (r & Hr & <- & <- & <- & <-).
    split; [done|]. split; [done|]. split; [done|].
    apply elem_of_groupby_mean. split.
    + exists r. split; [done|]. by rewrite (Hname r Hr).
    + unfold observations, Pd.group. do 2 f_equal.
      apply filter_ext_elem_of. intros r' Hr'.
      split; [|by intros [= -> _ -> -> ->]].
      intros (Ha & -> & -> & ->). rewrite (Hname r' Hr'), Ha. done.
Qed.

(** The points of the speedup of an algorithm in the figure of one dimension,
    group and distribution, in terms of the observations of the data frame. *)
Lemma elem_of_speedup_points_observations (rows : list csv_row)
    (dimension marker dist naive_algo algo : string) (s : Z) (v : npfloat) :
  let df := derive <$> rows in
  let obs a := observations df dimension dist a s in
  (s, v) ∈ speedup_points sr_Algorithm sr_Size sr_ExecutionTime naive_algo
             (speedup_dist_data df dimension marker dist) algo ↔
  Py.str_in marker algo = true ∧ Py.str_in marker naive_algo = true
  ∧ obs algo ≠ [] ∧ obs naive_algo ≠ []
  ∧ v = fdiv (Pd.mean (obs naive_algo)) (Pd.mean (obs algo)).
Proof.
  intros df obs. rewrite elem_of_speedup_points. split.
  - intros (x & y & Hx & Hy & Hax & Hay & Hs & -> & ->).
    apply elem_of_speedup_dist_data in Hx as (a1 & s1 & -> & Hm1 & Ho1).
    apply elem_of_speedup_dist_data in Hy as (a2 & s2 & -> & Hm2 & Ho2).
    simpl in *. subst. done.
  - intros (Hm1 & Hm2 & Ho1 & Ho2 & ->).
    exists (algo, algorithm_name algo, dimension, s, dist, Pd.mean (obs algo)),
      (naive_algo, algorithm_name naive_algo, dimension, s, dist,
       Pd.mean (obs naive_algo)).
    split; [apply elem_of_speedup_dist_data; by eauto|].
    split; [apply elem_of_speedup_dist_data; by eauto|]. done.
Qed.

(** C2: the speedup of an algorithm has a point at a size exactly when the
    baseline and the algorithm both have observations at that size: a size
    without baseline observations is absent, and so is a size that only the
    baseline has. *)
Theorem speedup_is_inner_join_on_size (rows : list csv_row)
    (dimension marker dist naive_algo algo : string)
    (pts : list (Z * npfloat)) (s : Z) :
  let df := derive <$> rows in
  let obs a := observations df dimension dist a s in
  (algo, pts) ∈ speedup_result sr_Algorithm sr_Size sr_ExecutionTime
                  naive_algo (speedup_dist_data df dimension marker dist) →
  (obs naive_algo = [] → s ∉ pts.*1)
  ∧ (obs algo = [] → s ∉ pts.*1)
  ∧ (Py.str_in marker naive_algo = true →
     s ∈ pts.*1 ↔ obs naive_algo ≠ [] ∧ obs algo ≠ []).
Proof.
  intros df obs Hres.
  apply elem_of_speedup_result in Hres as (Hne & (x & Hx & Hax) & ->).
  assert (Py.str_in marker algo = true) as Hm.
  { apply elem_of_speedup_dist_data in Hx as (a & s' & -> & Hm & _).
    by simpl in Hax; subst. }
  assert (∀ l : list (Z * npfloat), s ∈ l.*1 ↔ ∃ v, (s, v) ∈ l) as Hfst.
  { intros l. rewrite list_elem_of_fmap. split.
    - intros ([s' v] & -> & Hin). eauto.
    - intros (v & Hin). by exists (s, v). }
  split; [|split].
  - intros Hnil (v & Hin)%Hfst.
    apply elem_of_speedup_points_observations in Hin as (_ & _ & _ & Ho & _).
    done.
  - intros Hnil (v & Hin)%Hfst.
    apply elem_of_speedup_points_observations in Hin as (_ & _ & Ho & _ & _).
    done.
  - intros Hmn. rewrite Hfst. split.
    + intros (v & Hin).
      apply elem_of_speedup_points_observations in Hin as (_ & _ & ? & ? & _).
      done.
    + intros [Hon Hoa]. eexists.
      apply elem_of_speedup_points_observations. done.
Qed.

Lemma speedup_is_inner_join_on_size_witness :
  200%Z ∉ [(100%Z, Finite (ms 5))].*1.
Proof.
  refine (proj1 (proj2 (speedup_is_inner_join_on_size baseline_only_size
    "TWO_D" "CLOSEST_PAIR" "UNIFORM" "CLOSEST_PAIR_NAIVE" "CLOSEST_PAIR_KDTREE"
    [(100%Z, Finite (ms 5))] 200 _)) _); [by_decide | reflexivity].
Defined.

(** ** The effects of the views *)

Lemma bind_ret_l {A B} (x : A) (f : A → M B) : bind (ret x) f = f x.
Proof. unfold bind, ret. simpl. by destruct (f x). Qed.

Lemma bind_assoc {A B C} (m : M A) (f : A → M B) (g : B → M C) :
  bind (bind m f) g = bind m (λ x, bind (f x) g).
Proof.
  unfold bind. destruct m as [t [e|x]]; simpl; [done|].
  destruct (f x) as [t' [e|y]]; simpl; [done|]. by rewrite (assoc_L (++)).
Qed.

Lemma bind_raises {A B} (m : M A) (f : A → M B) (e : exn) :
  outcome m = inl e → bind m f = Run (trace m) (inl e).
Proof. intros He. unfold bind. by rewrite He. Qed.

Lemma bind_returns {A B} (m : M A) (f : A → M B) (x : A) :
  outcome m = inr x →
  bind m f = Run (trace m ++ trace (f x)) (outcome (f x)).
Proof. intros Hx. unfold bind. by rewrite Hx. Qed.

Lemma for_ext {A} (l : list A) (f g : A → M unit) :
  (∀ x, x ∈ l → f x = g x) → for_ l f = for_ l g.
Proof.
  induction l as [|x l IH]; intros Hfg; simpl; [done|].
  rewrite (Hfg x) by apply list_elem_of_here.
  rewrite IH; [done|]. intros y Hy. apply Hfg. by apply list_elem_of_further.
Qed.

(** ** The speedup view without a baseline *)

Lemma naive_in_group (algo_group : string) :
  Py.str_in (marker_of algo_group) (naive_of algo_group) = true.
Proof.
  unfold marker_of, naive_of. by destruct (String.eqb algo_group "Closest Pair").
Qed.

(** C10: when no record of a dimension and algorithm group has the
    identifier of the naive algorithm of the group, the body of
    [plot_relative_speedup] for that dimension and group does nothing: it
    saves no figure, prints nothing and raises nothing. *)
Theorem relative_speedup_skips_group_without_naive
    (writable : string → bool) (df : DataFrame) (dimension algo_group : string) :
  Forall (λ r, Dimension r = dimension →
               Py.str_in (marker_of algo_group) (Algorithm r) = true →
               Algorithm r ≠ naive_of algo_group) df →
  relative_speedup_of_group writable df dimension algo_group = Run [] (inr tt).
Proof.
  intros Hno. unfold relative_speedup_of_group.
  rewrite decide_True; [done|]. right.
  intros (x & Hax & Hx)%list_elem_of_fmap.
  unfold speedup_group_data in Hx.
  apply list_elem_of_filter in Hx as [Hm Hx].
  apply list_elem_of_filter in Hx as [Hd Hx].
  destruct x as [[[[[a n] d] s] ds] t]. simpl in *. subst.
  apply elem_of_groupby_mean in Hx as [(r & Hr & Hk) _].
  rewrite Forall_forall in Hno. injection Hk as Ha _ Hd _ _.
  apply (Hno r Hr Hd); by rewrite Ha.
Qed.

Lemma relative_speedup_skips_group_without_naive_witness :
  relative_speedup_of_group (λ _, true) (derive <$> no_baseline)
    "TWO_D" "Closest Pair" = Run [] (inr tt).
Proof.
  apply (relative_speedup_skips_group_without_naive (λ _, true)
           (derive <$> no_baseline) "TWO_D" "Closest Pair").
  by_decide.
Defined.

(** ** The driver *)

Lemma run_all_raises (before after : list (DataFrame → M unit))
    (v : DataFrame → M unit) (df : DataFrame) (k : M unit) (e : exn) :
  Forall (λ w, outcome (w df) = inr tt) before →
  outcome (v df) = inl e →
  run_all (before ++ v :: after)%list df k
  = Run ((before ≫= λ w, trace (w df)) ++ trace (v df))%list (inl e).
Proof.
  intros Hb Hv. induction Hb as [|w before Hw _ IH]; simpl.
  - by apply bind_raises.
  - rewrite (bind_returns _ _ _ Hw). fold (run_all (before ++ v :: after)%list df k).
    rewrite IH. simpl. by rewrite (assoc_L (++)).
Qed.

Lemma main_body_run_all (read_csv : string → exn + list csv_row)
    (writable : string → bool) :
  main_body read_csv writable
  = let* df := load_and_prepare_data read_csv (Some find_latest_benchmark_file) in
    print (generating_message (length df)) >>
    run_all (views writable) df (print complete_message).
Proof. reflexivity. Qed.

(** The run on the two rows of the scenario when every file can be written:
    the six views before the dashboard save their figures, the dashboard
    raises on its second panel, which has no row of three dimensions, and the
    run ends with the report of that error. *)
Example main_on_scenario :
  saved_paths (trace (main read_scenario (λ _, true)))
  = ["benchmark_charts/2D_ClosestPair_complexity.png";
     "benchmark_charts/2D_ClosestPair_distributions.png";
     "benchmark_charts/2D_ClosestPair_memory.png";
     "benchmark_charts/CLOSEST_PAIR_KDTREE_dimension_comparison.png";
     "benchmark_charts/CLOSEST_PAIR_NAIVE_dimension_comparison.png";
     "benchmark_charts/2D_ClosestPair_heatmap.png";
     "benchmark_charts/2D_ClosestPair_UNIFORM_speedup.png"]
  ∧ List.last (trace (main read_scenario (λ _, true))) (Print "")
    = Traceback (ValueError "min() arg is an empty sequence")
  ∧ Print complete_message ∉ trace (main read_scenario (λ _, true)).
Proof. split; [by vm_compute|split; [by vm_compute|by_decide]]. Qed.

(** The figure of the speedup view on the scenario. *)
Example plot_relative_speedup_on_scenario :
  trace (plot_relative_speedup (λ _, true) (derive <$> scenario))
  = [SaveFig "benchmark_charts/2D_ClosestPair_UNIFORM_speedup.png"
       [[Curve "KD-Tree" [(100%Z, Finite (ms 5))]]]].
Proof. by_decide. Qed.

(** C4, as the claim states it, fails: when the third view raises, the four
    views after it are not computed; the figures that they save on the same
    data never appear. *)
Lemma main_abandons_remaining_views :
  let df := derive <$> scenario in
  outcome (plot_memory_usage memory_chart_locked df)
    = inl (OSError "benchmark_charts/2D_ClosestPair_memory.png")
  ∧ saved_paths (trace (plot_relative_speedup memory_chart_locked df))
    = ["benchmark_charts/2D_ClosestPair_UNIFORM_speedup.png"]
  ∧ saved_paths (trace (main read_scenario memory_chart_locked))
    = ["benchmark_charts/2D_ClosestPair_complexity.png";
       "benchmark_charts/2D_ClosestPair_distributions.png"]
  ∧ outcome (main read_scenario memory_chart_locked) = inr tt.
Proof. by vm_compute. Qed.

(** C4 (amended): [main] has one handler around all the views.  When a view
    raises, the views before it have run, the error is printed with its
    traceback, no later view is computed, and [main] returns. *)
Theorem main_stops_at_first_error (read_csv : string → exn + list csv_row)
    (writable : string → bool) (rows : list csv_row)
    (before after : list (DataFrame → M unit)) (v : DataFrame → M unit)
    (e : exn) :
  let df := derive <$> rows in
  read_csv find_latest_benchmark_file = inr rows →
  views writable = (before ++ v :: after)%list →
  Forall (λ w, outcome (w df) = inr tt) before →
  outcome (v df) = inl e →
  main read_csv writable
  = Run (Print (loading_message find_latest_benchmark_file)
         :: Print (generating_message (length df))
         :: (before ≫= λ w, trace (w df)) ++ trace (v df)
         ++ [Print (error_message e); Traceback e])%list
      (inr tt).
Proof.
  intros df Hread Hviews Hbefore Hv.
  assert (load_and_prepare_data read_csv (Some find_latest_benchmark_file)
          = Run [Print (loading_message find_latest_benchmark_file)] (inr df))
    as Hload.
  { unfold load_and_prepare_data, bind, print, emit, lift, ret. simpl.
    by rewrite Hread. }
  unfold main. rewrite main_body_run_all, Hload.
  rewrite (bind_returns _ _ df) by done.
  rewrite (bind_returns (print _) _ tt) by done.
  rewrite Hviews, (run_all_raises _ _ _ _ _ _ Hbefore Hv).
  unfold try_except, bind, print, emit, lift, ret. simpl.
  by rewrite <-!(assoc_L (++)).
Qed.

Lemma main_stops_at_first_error_witness :
  saved_paths (trace (main read_scenario memory_chart_locked))
  = ["benchmark_charts/2D_ClosestPair_complexity.png";
     "benchmark_charts/2D_ClosestPair_distributions.png"].
Proof.
  rewrite (main_stops_at_first_error read_scenario memory_chart_locked scenario
    [plot_time_complexity_by_dimension memory_chart_locked;
     plot_distribution_comparison memory_chart_locked]
    [plot_dimension_comparison memory_chart_locked;
     plot_performance_heatmap memory_chart_locked;
     plot_relative_speedup memory_chart_locked;
     create_unified_dashboard memory_chart_locked]
    (plot_memory_usage memory_chart_locked)
    (OSError "benchmark_charts/2D_ClosestPair_memory.png")).
  - by vm_compute.
  - reflexivity.
  - reflexivity.
  - repeat constructor; by vm_compute.
  - by vm_compute.
Defined.

(** * Further properties of the script *)

(** ** Identifiers *)

Lemma prefix_spec (p s : string) :
  String.prefix p s = true ↔ ∃ r, s = p ++ r.
Proof.
  revert p. induction s as [|c s IH]; intros [|a p]; simpl.
  - split; [by exists ""|done].
  - split; [done|]. by intros [r Hr].
  - split; [by exists (String c s)|done].
  - destruct (ascii_dec a c) as [->|Hne].
    + rewrite IH. split.
      * intros [r ->]. by exists r.
      * intros [r Hr]. exists r. by injection Hr.
    + split; [done|]. intros [r Hr]. by injection Hr.
Qed.

Lemma str_in_spec (sub s : string) :
  Py.str_in sub s = true ↔ ∃ a b, s = a ++ sub ++ b.
Proof.
  induction s as [|c s IH].
  - change (Py.str_in sub "") with (String.prefix sub "" || false).
    rewrite orb_false_r, prefix_spec. split.
    + intros [r Hr]. by exists "", r.
    + intros (a & b & Hab). destruct a; [by exists b|done].
  - change (Py.str_in sub (String c s))
      with (String.prefix sub (String c s) || Py.str_in sub s).
    rewrite orb_true_iff, prefix_spec, IH. split.
    + intros [[r Hr]|(a & b & ->)].
      * by exists "", r.
      * by exists (String c a), b.
    + intros (a & b & Hab). destruct a as [|c' a].
      * left. by exists b.
      * right. exists a, b. by injection Hab.
Qed.

(** X1: the algorithm group of an identifier is [Closest Pair] exactly when
    [CLOSEST_PAIR] occurs in it as a substring, and [Diameter] in every other
    case, so that every row is in exactly one of the two groups. *)
Theorem algorithm_group_spec (x : string) :
  (algorithm_group x = "Closest Pair" ↔ ∃ a b, x = a ++ "CLOSEST_PAIR" ++ b)
  ∧ (algorithm_group x = "Diameter" ↔ ¬ ∃ a b, x = a ++ "CLOSEST_PAIR" ++ b)
  ∧ algorithm_group x ∈ algo_groups.
Proof.
  unfold algorithm_group. rewrite <-str_in_spec.
  destruct (Py.str_in "CLOSEST_PAIR" x).
  - split; [done|]. split; [|apply list_elem_of_here].
    split; [done|]. intros Hn. by destruct Hn.
  - split; [done|]. split; [|apply list_elem_of_further, list_elem_of_here].
    split; [by intros _ ?|done].
Qed.

Lemma string_app_assoc (a b c : string) : (a ++ b) ++ c = a ++ (b ++ c).
Proof.
  induction a as [|x a IH]; [done|].
  change (String x ((a ++ b) ++ c) = String x (a ++ (b ++ c))). by rewrite IH.
Qed.

Lemma join_split (sep : Ascii.ascii) (s : string) :
  Py.join (String sep "") (Py.split sep s) = s.
Proof.
  induction s as [|c s IH]; [done|]. simpl.
  pose proof (split_nonempty sep s) as Hne.
  destruct (Ascii.eqb_spec c sep) as [->|_].
  - destruct (Py.split sep s) as [|tok toks]; [done|].
    change (Py.join (String sep "") ("" :: tok :: toks))
      with ("" ++ String sep "" ++ Py.join (String sep "") (tok :: toks)).
    by rewrite IH.
  - destruct (Py.split sep s) as [|tok toks]; [done|].
    destruct toks as [|tok' toks]; simpl in *; by rewrite <-IH.
Qed.

Lemma split_tokens (sep : Ascii.ascii) (s : string) :
  Forall (λ tok, Py.str_in (String sep "") tok = false) (Py.split sep s).
Proof.
  induction s as [|c s IH]; simpl; [by repeat constructor|].
  pose proof (split_nonempty sep s) as Hne.
  destruct (Ascii.eqb_spec c sep) as [->|Hc].
  - by constructor.
  - destruct (Py.split sep s) as [|tok toks]; [done|].
    inv IH. constructor; [|done]. simpl.
    destruct (ascii_dec sep c) as [->|_]; [done|].
    by destruct tok.
Qed.

(** X2: splitting an identifier at [_] and joining the tokens with [_] gives
    the identifier back; there is always at least one token and no token
    contains the separator. *)
Theorem split_join_roundtrip (s : string) :
  Py.join "_" (Py.split "_"%char s) = s
  ∧ Py.split "_"%char s ≠ []
  ∧ Forall (λ tok, Py.str_in "_" tok = false) (Py.split "_"%char s).
Proof.
  split; [apply join_split|]. split; [apply split_nonempty|apply split_tokens].
Qed.

(** X3: the variant of an identifier is its last token whatever its first
    token is, and for an identifier of the shape that the known algorithms
    have ([DIAMETER] and one more token, or three tokens not starting with
    [DIAMETER]) the family, a [_] and the variant make up the identifier
    again. *)
Theorem family_variant_decomposition (x : string) :
  let toks := Py.split "_"%char x in
  algorithm_variant x = Py.last toks
  ∧ ((Py.first toks = "DIAMETER" ∧ length toks = 2%nat)
     ∨ (Py.first toks ≠ "DIAMETER" ∧ length toks = 3%nat) →
     algorithm_type x ++ "_" ++ algorithm_variant x = x).
Proof.
  intros toks. split.
  { unfold algorithm_variant. by case_match. }
  pose proof (join_split "_"%char x) as Hjoin. fold toks in Hjoin.
  unfold algorithm_type, algorithm_variant. fold toks.
  intros [[Hd Hlen]|[Hd Hlen]].
  - rewrite Hd. simpl.
    destruct toks as [|a [|b [|c l]]]; simplify_eq/=. done.
  - destruct (String.eqb_spec (Py.first toks) "DIAMETER") as [|_]; [done|].
    destruct toks as [|a [|b [|c [|d l]]]]; simplify_eq/=.
    by rewrite string_app_assoc.
Qed.

Lemma family_variant_decomposition_witness :
  algorithm_type "DIAMETER_QUICKHULL" ++ "_"
    ++ algorithm_variant "DIAMETER_QUICKHULL" = "DIAMETER_QUICKHULL".
Proof.
  apply (family_variant_decomposition "DIAMETER_QUICKHULL").
  left. split; reflexivity.
Defined.

(** X4: the display name of an identifier outside the table of names is the
    identifier itself, and taking the display name twice is the same as
    taking it once: no display name is itself an identifier of the table. *)
Theorem algorithm_name_idempotent (x : string) :
  (x ∉ algorithm_names.*1 → algorithm_name x = x)
  ∧ algorithm_name (algorithm_name x) = algorithm_name x.
Proof.
  split.
  - unfold algorithm_name.
    destruct (dict_get_cases algorithm_names x) as [Hin|Heq]; [|done].
    intros Hx. destruct Hx. apply list_elem_of_fmap.
    by exists (x, Py.dict_get algorithm_names x x).
  - unfold algorithm_name at 2 3.
    destruct (dict_get_cases algorithm_names x) as [Hin|Heq].
    + known_algorithm Hin; by vm_compute.
    + by rewrite Heq.
Qed.

Lemma algorithm_name_idempotent_witness :
  algorithm_name "DIAMETER_PARALLEL" = "DIAMETER_PARALLEL".
Proof.
  refine (proj1 (algorithm_name_idempotent "DIAMETER_PARALLEL") _). by_decide.
Defined.

(** ** Tables of means *)

Lemma mean_singleton (v : Qc) : Pd.mean [v] = v.
Proof.
  unfold Pd.mean, Pd.sum. cbn [foldr length].
  change (Z.of_nat 1) with 1%Z.
  rewrite Z2Qc_inj_1, Qcplus_0_r. apply (right_id 1%Qc Qcdiv).
Qed.

Lemma filter_none {A} (P : A → Prop) `{!∀ x, Decision (P x)} (l : list A) :
  (∀ x, x ∈ l → ¬ P x) → filter P l = [].
Proof.
  induction l as [|a l IH]; intros Hl; [done|].
  rewrite filter_cons, decide_False by (apply Hl, list_elem_of_here).
  apply IH. intros x Hx. by apply Hl, list_elem_of_further.
Qed.

Lemma StronglySorted_filter {A} (Rel : relation A) (P : A → Prop)
    `{!∀ x, Decision (P x)} (l : list A) :
  StronglySorted Rel l → StronglySorted Rel (filter P l).
Proof.
  induction 1 as [|a l Hl IH Ha]; [constructor|].
  rewrite filter_cons. case_decide; [|done].
  constructor; [done|]. rewrite Forall_forall in Ha. apply Forall_forall.
  intros x [_ Hx]%list_elem_of_filter. by apply Ha.
Qed.

Lemma StronglySorted_strict {A} (Rel : relation A) `{!AntiSymm (=) Rel}
    (l : list A) :
  StronglySorted Rel l → NoDup l → StronglySorted (strict Rel) l.
Proof.
  induction 1 as [|a l Hl IH Ha]; intros Hnd; [constructor|].
  apply NoDup_cons in Hnd as [Hal Hnd]. constructor; [by apply IH|].
  rewrite Forall_forall in Ha. apply Forall_forall. intros x Hx.
  split; [by apply Ha|]. intros Hxa.
  assert (a = x) as -> by (apply (anti_symm Rel); [by apply Ha|done]). done.
Qed.

Section MoreGrouping.
Context {R : Type} `{OrdLaws K}.
Implicit Types (key : R → K) (val : R → Qc) (df : list R).

Lemma StronglySorted_group_keys key df :
  StronglySorted kle (Pd.group_keys key df).
Proof. apply Sorted_StronglySorted; [apply _|apply Sorted_group_keys]. Qed.

Lemma group_singleton key df r :
  NoDup (key <$> df) → r ∈ df → Pd.group key (key r) df = [r].
Proof.
  unfold Pd.group. induction df as [|r' df IH]; intros Hnd Hr.
  { by apply not_elem_of_nil in Hr. }
  rewrite fmap_cons in Hnd. apply NoDup_cons in Hnd as [Hr' Hnd].
  rewrite filter_cons. apply elem_of_cons in Hr as [->|Hr].
  - rewrite decide_True by done. f_equal. apply filter_none.
    intros x Hx Hk. apply Hr'. rewrite <-Hk. by apply list_elem_of_fmap_2.
  - rewrite decide_False; [by apply IH|].
    intros Hk. apply Hr'. rewrite Hk. by apply list_elem_of_fmap_2.
Qed.

(** X5: on a data frame in which every group has a single row, the table of
    means holds exactly the rows' own keys and values. *)
Theorem groupby_mean_single_rows key val df :
  NoDup (key <$> df) →
  Pd.groupby_mean key val df ≡ₚ (λ r, (key r, val r)) <$> df.
Proof.
  intros Hnd. apply NoDup_Permutation.
  - apply NoDup_fst, NoDup_groupby_mean_keys.
  - apply NoDup_fst. by rewrite <-list_fmap_compose.
  - intros [k v]. rewrite elem_of_groupby_mean, list_elem_of_fmap. split.
    + intros [(r & Hr & <-) ->]. exists r. split; [|done].
      rewrite (group_singleton _ _ _ Hnd Hr).
      change (val <$> [r]) with [val r]. by rewrite mean_singleton.
    + intros (r & [= -> ->] & Hr). split; [by exists r|].
      rewrite (group_singleton _ _ _ Hnd Hr).
      change (val <$> [r]) with [val r]. by rewrite mean_singleton.
Qed.

(** X6: the keys of a table of means are in strictly increasing order, and
    they are exactly the keys that occur in the data frame. *)
Theorem groupby_mean_keys_sorted key val df :
  StronglySorted (strict kle) (fst <$> Pd.groupby_mean key val df)
  ∧ ∀ k, k ∈ fst <$> Pd.groupby_mean key val df ↔ ∃ r, r ∈ df ∧ key r = k.
Proof.
  rewrite groupby_mean_keys. split.
  - apply StronglySorted_strict; [apply _|..].
    + apply StronglySorted_group_keys.
    + apply NoDup_group_keys.
  - intros k. apply elem_of_group_keys.
Qed.

Lemma group_keys_filter key (P : K → Prop) `{!∀ k, Decision (P k)} df :
  Pd.group_keys key (filter (λ r, P (key r)) df)
  = filter P (Pd.group_keys key df).
Proof.
  apply (Sorted_unique kle).
  - apply Sorted_group_keys.
  - apply StronglySorted_Sorted, StronglySorted_filter, StronglySorted_group_keys.
  - apply NoDup_Permutation.
    + apply NoDup_group_keys.
    + apply NoDup_filter, NoDup_group_keys.
    + intros k. rewrite list_elem_of_filter, !elem_of_group_keys. split.
      * intros (r & [HP Hr]%list_elem_of_filter & <-). eauto.
      * intros [HP (r & Hr & <-)]. exists r. split; [|done].
        by apply list_elem_of_filter.
Qed.

(** X7: selecting rows by a condition on the group key and then taking the
    means gives the same table as taking the means of all rows and then
    selecting the rows of the table by that condition. *)
Theorem groupby_mean_filter key val (P : K → Prop) `{!∀ k, Decision (P k)} df :
  Pd.groupby_mean key val (filter (λ r, P (key r)) df)
  = filter (λ x, P x.1) (Pd.groupby_mean key val df).
Proof.
  unfold Pd.groupby_mean. rewrite group_keys_filter.
  induction (Pd.group_keys key df) as [|k ks IH]; [done|].
  rewrite fmap_cons, !filter_cons. simpl. case_decide as HP; [|done].
  rewrite fmap_cons, IH. do 3 f_equal. unfold Pd.group.
  rewrite list_filter_filter. f_equal. apply list_filter_iff. intros r.
  split; [by intros [? _]|]. intros Hk. split; [done|]. by rewrite Hk.
Qed.

End MoreGrouping.

(** ** The largest size, again *)

(** X8: the rows of the largest size all have one and the same size, there
    is at least one of them unless the data frame is empty, and filtering
    them again changes nothing. *)
Theorem largest_data_one_size (df : DataFrame) :
  (df ≠ [] → largest_data df ≠ [])
  ∧ (∀ r r', r ∈ largest_data df → r' ∈ largest_data df → Size r = Size r')
  ∧ largest_data (largest_data df) = largest_data df.
Proof.
  unfold largest_data at 1 2 3. cbv zeta.
  destruct (Pd.series_max (Size <$> df)) as [m|] eqn:Hmax.
  - apply series_max_spec in Hmax as Hm. destruct Hm as [Hin Hle].
    apply list_elem_of_fmap in Hin as (r0 & -> & Hr0).
    assert (r0 ∈ filter (λ r, Some (Size r) = Some (Size r0)) df) as Hr0'
      by (by apply list_elem_of_filter).
    split; [|split].
    + intros _ Hnil. rewrite Hnil in Hr0'. by apply not_elem_of_nil in Hr0'.
    + intros r r' [[= Hr] _]%list_elem_of_filter [[= Hr'] _]%list_elem_of_filter.
      congruence.
    + unfold largest_data. cbv zeta. rewrite Hmax.
      assert (Pd.series_max
                (Size <$> filter (λ r, Some (Size r) = Some (Size r0)) df)
              = Some (Size r0)) as ->.
      { apply series_max_spec. split; [by apply list_elem_of_fmap_2|].
        rewrite Forall_fmap. apply Forall_forall.
        intros r [[= Hr] _]%list_elem_of_filter. simpl. lia. }
      by apply list_filter_filter_l.
  - destruct df as [|r df]; [|by simplify_eq/=].
    split; [done|]. split; [|done].
    intros r r' Hr. by apply not_elem_of_nil in Hr.
Qed.

Lemma largest_data_one_size_witness :
  largest_data (derive <$> scenario) ≠ [].
Proof.
  refine (proj1 (largest_data_one_size (derive <$> scenario)) _). done.
Defined.

(** ** What a run prints and saves *)

Lemma trace_bind {A B} (m : M A) (f : A → M B) (P : event → Prop) :
  Forall P (trace m) → (∀ x, Forall P (trace (f x))) →
  Forall P (trace (bind m f)).
Proof.
  intros Hm Hf. unfold bind. destruct (outcome m); simpl; [done|].
  apply Forall_app. auto.
Qed.

Lemma trace_for {A} (l : list A) (body : A → M unit) (P : event → Prop) :
  (∀ x, Forall P (trace (body x))) → Forall P (trace (for_ l body)).
Proof.
  intros Hb. induction l as [|x l IH]; simpl; [constructor|].
  by apply trace_bind.
Qed.

Lemma trace_lift {A} (r : exn + A) (P : event → Prop) :
  Forall P (trace (lift r)).
Proof. constructor. Qed.

Lemma trace_savefig (writable : string → bool) (stem : string) (fig : figure) :
  Forall is_chart
    (trace (savefig writable (IMAGES_DIR ++ "/" ++ stem ++ ".png") fig)).
Proof.
  unfold savefig. destruct (writable _); [|constructor].
  repeat constructor. by exists stem.
Qed.

Ltac chart_path stem :=
  match goal with
  | |- Forall is_chart (trace (savefig ?w ?path ?fig)) =>
      replace path with (IMAGES_DIR ++ "/" ++ stem ++ ".png");
      [apply trace_savefig | by rewrite ?string_app_assoc]
  end.

Ltac only_charts :=
  repeat first
    [ apply trace_for; intros ?
    | apply trace_bind; [|intros ?]
    | apply trace_lift
    | case_decide
    | apply Forall_nil_2 ].

Lemma plot_time_complexity_by_dimension_charts writable df :
  Forall is_chart (trace (plot_time_complexity_by_dimension writable df)).
Proof.
  unfold plot_time_complexity_by_dimension, ensure_dir, continue, ret.
  only_charts.
  chart_path (dim_label_of x ++ "_" ++ Py.remove_char " " x0 ++ "_complexity").
Qed.

Lemma plot_distribution_comparison_charts writable df :
  Forall is_chart (trace (plot_distribution_comparison writable df)).
Proof.
  unfold plot_distribution_comparison, ensure_dir, continue, ret.
  only_charts.
  chart_path (dim_label_of x ++ "_" ++ Py.remove_char " " x0
              ++ "_distributions").
Qed.

Lemma plot_memory_usage_charts writable df :
  Forall is_chart (trace (plot_memory_usage writable df)).
Proof.
  unfold plot_memory_usage, ensure_dir, continue, ret.
  only_charts.
  chart_path (dim_label_of x ++ "_" ++ Py.remove_char " " x0 ++ "_memory").
Qed.

Lemma plot_dimension_comparison_charts writable df :
  Forall is_chart (trace (plot_dimension_comparison writable df)).
Proof.
  unfold plot_dimension_comparison, ensure_dir, continue, ret.
  only_charts.
  chart_path (x ++ "_dimension_comparison").
Qed.

Lemma plot_performance_heatmap_charts writable df :
  Forall is_chart (trace (plot_performance_heatmap writable df)).
Proof.
  unfold plot_performance_heatmap, ensure_dir, continue, ret.
  only_charts.
  chart_path (dim_label_of x ++ "_" ++ Py.remove_char " " x0 ++ "_heatmap").
Qed.

Lemma plot_relative_speedup_charts writable df :
  Forall is_chart (trace (plot_relative_speedup writable df)).
Proof.
  unfold plot_relative_speedup, relative_speedup_of_group, ensure_dir,
    continue, ret.
  only_charts.
  chart_path (dim_label_of x ++ "_" ++ Py.remove_char " " x0 ++ "_" ++ x1
              ++ "_speedup").
Qed.

Lemma create_unified_dashboard_charts writable df :
  Forall is_chart (trace (create_unified_dashboard writable df)).
Proof.
  unfold create_unified_dashboard, plot_time_complexity_dashboard,
    plot_distribution_dashboard, plot_speedup_dashboard, ensure_dir, ret.
  only_charts.
  chart_path "performance_dashboard".
Qed.

Lemma views_charts (writable : string → bool) (df : DataFrame) :
  Forall (λ view, Forall is_chart (trace (view df))) (views writable).
Proof.
  unfold views. repeat constructor;
    auto using plot_time_complexity_by_dimension_charts,
      plot_distribution_comparison_charts, plot_memory_usage_charts,
      plot_dimension_comparison_charts, plot_performance_heatmap_charts,
      plot_relative_speedup_charts, create_unified_dashboard_charts.
Qed.

(** X9: whatever the data and whichever files can be written, the only
    events of the seven views are saved figures, and each is saved to a file
    [benchmark_charts/<name>.png]; the views print nothing. *)
Theorem views_only_save_charts (writable : string → bool) (df : DataFrame) :
  Forall (λ view, ∀ ev, ev ∈ trace (view df) →
            ∃ fig stem,
              ev = SaveFig (IMAGES_DIR ++ "/" ++ stem ++ ".png") fig)
    (views writable).
Proof.
  eapply Forall_impl; [apply views_charts|].
  intros view Hview ev Hin. rewrite Forall_forall in Hview.
  apply Hview in Hin. destruct ev as [| |path fig]; try done.
  destruct Hin as [stem ->]. by exists fig, stem.
Qed.

Lemma groupby_mean_single_rows_witness :
  Pd.groupby_mean (λ r, (Algorithm r, Size r)) ExecutionTime (derive <$> scenario)
  ≡ₚ (λ r, ((Algorithm r, Size r), ExecutionTime r)) <$> (derive <$> scenario).
Proof.
  apply (groupby_mean_single_rows (λ r, (Algorithm r, Size r)) ExecutionTime
           (derive <$> scenario)).
  by_decide.
Defined.

Lemma groupby_mean_keys_sorted_witness :
  StronglySorted (strict kle)
    (fst <$> Pd.groupby_mean (λ r, (Algorithm r, Size r)) ExecutionTime
               (derive <$> scenario)).
Proof.
  exact (proj1 (groupby_mean_keys_sorted (λ r, (Algorithm r, Size r))
                  ExecutionTime (derive <$> scenario))).
Defined.

Lemma groupby_mean_filter_witness :
  Pd.groupby_mean (λ r, (Algorithm r, Dimension r, Size r)) MemoryUsage
    (filter (λ r, (λ k : string * string * Z, k.1.2 = "TWO_D")
                    (Algorithm r, Dimension r, Size r)) (derive <$> scenario))
  = filter (λ x, x.1.1.2 = "TWO_D")
      (Pd.groupby_mean (λ r, (Algorithm r, Dimension r, Size r)) MemoryUsage
         (derive <$> scenario)).
Proof.
  exact (groupby_mean_filter (λ r, (Algorithm r, Dimension r, Size r))
           MemoryUsage (λ k, k.1.2 = "TWO_D") (derive <$> scenario)).
Defined.

(** ** What [main] reports *)

Lemma try_except_returns (body : M unit) (handler : exn → M unit) :
  (∀ e, outcome (handler e) = inr tt) →
  outcome (try_except body handler) = inr tt.
Proof.
  intros Hh. unfold try_except.
  destruct (outcome body) as [e|[]] eqn:Hb; simpl; auto.
Qed.

Lemma head_trace_bind {A B} (m : M A) (f : A → M B) (ev : event) :
  head (trace m) = Some ev → head (trace (bind m f)) = Some ev.
Proof.
  intros Hm. unfold bind. destruct (outcome m); simpl; [done|].
  by destruct (trace m).
Qed.

Lemma head_trace_try_except {A} (body : M A) (handler : exn → M A)
    (ev : event) :
  head (trace body) = Some ev →
  head (trace (try_except body handler)) = Some ev.
Proof.
  intros Hm. unfold try_except. destruct (outcome body); simpl; [|done].
  by destruct (trace body).
Qed.

(** X10: [main] never lets an exception escape: whatever the file system
    holds and whatever the data, it returns normally, and the first thing it
    prints is the path of the file that it loads. *)
Theorem main_never_raises (read_csv : string → exn + list csv_row)
    (writable : string → bool) :
  outcome (main read_csv writable) = inr tt
  ∧ head (trace (main read_csv writable))
    = Some (Print (loading_message find_latest_benchmark_file)).
Proof.
  split.
  - by apply try_except_returns.
  - apply head_trace_try_except. unfold main_body, load_and_prepare_data.
    by do 2 apply head_trace_bind.
Qed.

Lemma messages_differ (path : string) (n : nat) (e : exn) :
  loading_message path ≠ complete_message
  ∧ generating_message n ≠ complete_message
  ∧ error_message e ≠ complete_message.
Proof.
  repeat split; intros Heq; apply (f_equal (String.get 0)) in Heq;
    by vm_compute in Heq.
Qed.

Lemma run_all_reports (l : list (DataFrame → M unit)) (df : DataFrame) :
  Forall (λ view, Forall is_chart (trace (view df))) l →
  let run := run_all l df (print complete_message) in
  Forall (λ ev, is_chart ev ∨ ev = Print complete_message) (trace run)
  ∧ (Print complete_message ∈ trace run ↔ outcome run = inr tt).
Proof.
  induction 1 as [|view l Hv _ IH]; simpl.
  - split; [by repeat constructor|]. split; [done|]. intros _. apply list_elem_of_here.
  - destruct IH as [IHall IHiff].
    fold (run_all l df (print complete_message)) in *.
    assert (Print complete_message ∉ trace (view df)) as Hnot.
    { intros Hin. rewrite Forall_forall in Hv. by apply Hv in Hin. }
    unfold bind. destruct (outcome (view df)) as [e|[]]; simpl.
    + split; [by eapply Forall_impl; [done|]; auto|]. split; [done|done].
    + split.
      * apply Forall_app. split; [|done]. eapply Forall_impl; [done|]. auto.
      * rewrite elem_of_app. rewrite <-IHiff. tauto.
Qed.

Lemma main_body_cases (read_csv : string → exn + list csv_row)
    (writable : string → bool) :
  main_body read_csv writable
  = match read_csv find_latest_benchmark_file with
    | inl e => Run [Print (loading_message find_latest_benchmark_file)] (inl e)
    | inr rows =>
        let df := derive <$> rows in
        let run := run_all (views writable) df (print complete_message) in
        Run (Print (loading_message find_latest_benchmark_file)
             :: Print (generating_message (length df)) :: trace run)
          (outcome run)
    end.
Proof.
  rewrite main_body_run_all.
  destruct (read_csv find_latest_benchmark_file) as [e|rows] eqn:Hread.
  - assert (load_and_prepare_data read_csv (Some find_latest_benchmark_file)
            = Run [Print (loading_message find_latest_benchmark_file)] (inl e))
      as ->; [|done].
    unfold load_and_prepare_data, bind, print, emit, lift, ret. simpl.
    by rewrite Hread.
  - assert (load_and_prepare_data read_csv (Some find_latest_benchmark_file)
            = Run [Print (loading_message find_latest_benchmark_file)]
                (inr (derive <$> rows))) as ->.
    { unfold load_and_prepare_data, bind, print, emit, lift, ret. simpl.
      by rewrite Hread. }
    rewrite (bind_returns _ _ (derive <$> rows)) by done.
    by rewrite (bind_returns (print _) _ tt) by done.
Qed.

(** X11: the closing line [Plotting complete ...] is printed exactly when the
    body of [main] raised nothing, and a traceback is printed exactly when it
    raised something; the two never appear in the same run. *)
Theorem main_reports_outcome (read_csv : string → exn + list csv_row)
    (writable : string → bool) :
  let body := main_body read_csv writable in
  let run := main read_csv writable in
  (Print complete_message ∈ trace run ↔ outcome body = inr tt)
  ∧ (∀ e, Traceback e ∈ trace run ↔ outcome body = inl e).
Proof.
  intros body run.
  assert (Forall (λ ev, is_chart ev ∨ ∃ msg, ev = Print msg) (trace body)
          ∧ (Print complete_message ∈ trace body ↔ outcome body = inr tt))
    as [Hall Hiff].
  { subst body. rewrite main_body_cases.
    destruct (read_csv find_latest_benchmark_file) as [e|rows]; simpl.
    - split; [constructor; [right; eauto|constructor]|].
      split; [|done]. intros [Heq|Hin%not_elem_of_nil]%elem_of_cons; [|done].
      destruct (messages_differ find_latest_benchmark_file 0 e) as (? & _).
      congruence.
    - destruct (run_all_reports (views writable) (derive <$> rows)
                  (views_charts writable (derive <$> rows)))
        as [Hall Hiff].
      split.
      + constructor; [right; eauto|]. constructor; [right; eauto|].
        eapply Forall_impl; [done|]. intros ev [? | ->]; eauto.
      + rewrite <-Hiff, !elem_of_cons. split; [|auto].
        destruct (messages_differ find_latest_benchmark_file
                    (length (derive <$> rows)) (ValueError "")) as (? & ? & _).
        intros [Heq|[Heq|?]]; [..|done]; congruence. }
  assert (∀ e, Traceback e ∉ trace body) as Hno.
  { intros e Hin. rewrite Forall_forall in Hall.
    apply Hall in Hin as [?|[msg ?]]; done. }
  subst run. unfold main, try_except. fold body.
  destruct (outcome body) as [e|[]] eqn:Hb; simpl.
  - split.
    + split; [|done]. rewrite elem_of_app, Hiff.
      intros [?|Hin]; [done|]. unfold bind, print, emit in Hin. simpl in Hin.
      apply elem_of_cons in Hin as [Heq|Hin].
      * destruct (messages_differ "" 0 e) as (_ & _ & ?). congruence.
      * apply elem_of_cons in Hin as [?|?%not_elem_of_nil]; done.
    + intros e'. rewrite elem_of_app. unfold bind, print, emit. simpl.
      rewrite !elem_of_cons. split.
      * intros [Hin|[?|[Heq|?%not_elem_of_nil]]]; try done.
        -- by apply Hno in Hin.
        -- by injection Heq as ->.
      * intros [= ->]. auto.
  - split; [by rewrite Hiff|]. intros e. split; [|done].
    intros Hin. by apply Hno in Hin.
Qed.

(** X12: when the CSV file cannot be read, [main] prints the path, the error
    and its traceback, and nothing else happens: no view is computed and no
    figure is saved. *)
Theorem main_without_file (read_csv : string → exn + list csv_row)
    (writable : string → bool) (e : exn) :
  read_csv find_latest_benchmark_file = inl e →
  main read_csv writable
  = Run [Print (loading_message find_latest_benchmark_file);
         Print (error_message e); Traceback e] (inr tt).
Proof.
  intros Hread. unfold main. rewrite main_body_cases, Hread. done.
Qed.

Lemma main_without_file_witness :
  saved_paths (trace (main (λ _, inl (OSError "No such file or directory"))
                        (λ _, true))) = [].
Proof.
  rewrite (main_without_file (λ _, inl (OSError "No such file or directory"))
             (λ _, true) (OSError "No such file or directory")).
  - reflexivity.
  - reflexivity.
Defined.

(** ** Which views can fail *)

Section WriteFailures.
Context (writable : string → bool).

Lemma fails_only_on_write_bind {A B} (m : M A) (f : A → M B) :
  fails_only_on_write writable m →
  (∀ x, fails_only_on_write writable (f x)) →
  fails_only_on_write writable (bind m f).
Proof.
  intros Hm Hf e. unfold bind.
  destruct (outcome m) as [e'|x] eqn:Ho; simpl.
  - intros [= <-]. by apply Hm.
  - apply Hf.
Qed.

Lemma fails_only_on_write_bind_returns {A B} (m : M A) (f : A → M B) (x : A) :
  outcome m = inr x → fails_only_on_write writable (f x) →
  fails_only_on_write writable (bind m f).
Proof. intros Hm Hf e. unfold bind. rewrite Hm. apply Hf. Qed.

Lemma fails_only_on_write_for {A} (l : list A) (body : A → M unit) :
  (∀ x, x ∈ l → fails_only_on_write writable (body x)) →
  fails_only_on_write writable (for_ l body).
Proof.
  induction l as [|x l IH]; intros Hb; simpl; [by intros e|].
  apply fails_only_on_write_bind; [apply Hb, list_elem_of_here|].
  intros _. apply IH. intros y Hy. by apply Hb, list_elem_of_further.
Qed.

Lemma fails_only_on_write_lift {A} (r : exn + A) (x : A) :
  r = inr x → fails_only_on_write writable (lift r).
Proof. by intros -> e. Qed.

Lemma fails_only_on_write_ret {A} (x : A) :
  fails_only_on_write writable (ret x).
Proof. by intros e. Qed.

Lemma fails_only_on_write_savefig (path : string) (fig : figure) :
  fails_only_on_write writable (savefig writable path fig).
Proof.
  intros e. unfold savefig. destruct (writable path) eqn:Hw; simpl; [done|].
  intros [= <-]. eauto.
Qed.

End WriteFailures.

Lemma groupby_mean_nonempty {R} `{Ord K} (key : R → K) (val : R → Qc)
    (df : list R) :
  df ≠ [] → Pd.groupby_mean key val df ≠ [].
Proof.
  destruct df as [|r df]; [done|]. intros _ Hnil.
  assert ((key r, Pd.mean (val <$> Pd.group key (key r) (r :: df)))
          ∈ Pd.groupby_mean key val (r :: df)) as Hin.
  { apply elem_of_groupby_mean. split; [|done]. exists r.
    split; [apply list_elem_of_here|done]. }
  rewrite Hnil in Hin. by apply not_elem_of_nil in Hin.
Qed.

Lemma min_max_nonempty (l : list Z) :
  l ≠ [] →
  (∃ lo, Py.min l = inr lo ∧ lo ∈ l) ∧ (∃ hi, Py.max l = inr hi ∧ hi ∈ l).
Proof.
  destruct l as [|x l]; [done|]. intros _. simpl. split; eexists; (split; [done|]).
  - induction l as [|y l IH]; simpl; [apply list_elem_of_here|].
    destruct (Z.min_spec y (foldr Z.min x l)) as [[_ ->]|[_ ->]].
    + apply list_elem_of_further, list_elem_of_here.
    + apply elem_of_cons in IH as [->|IH]; [apply list_elem_of_here|].
      by do 2 apply list_elem_of_further.
  - induction l as [|y l IH]; simpl; [apply list_elem_of_here|].
    destruct (Z.max_spec y (foldr Z.max x l)) as [[_ ->]|[_ ->]].
    + apply elem_of_cons in IH as [->|IH]; [apply list_elem_of_here|].
      by do 2 apply list_elem_of_further.
    + apply list_elem_of_further, list_elem_of_here.
Qed.

(** The reference curves are drawn when both ends of the range are sizes of
    an [int64] column. *)
Lemma reference_curves_int64 (lo hi : Z) :
  int64 lo → int64 hi → reference_curves lo hi = inr (Reference lo hi).
Proof.
  unfold int64, reference_curves. intros Hlo Hhi.
  rewrite decide_True; [done|].
  change (2 ^ 63)%Z with 9223372036854775808%Z in *.
  change (2 ^ 64)%Z with 18446744073709551616%Z. lia.
Qed.

(** The sizes of a table of means by algorithm and size are sizes of the
    rows of the data frame. *)
Lemma complexity_sizes_int64 (df : DataFrame) (s : Z) :
  Forall (λ r, int64 (Size r)) df →
  s ∈ (λ '(a, size, t), size)
        <$> Pd.groupby_mean (λ r, (Algorithm r, Size r)) ExecutionTime df →
  int64 s.
Proof.
  intros Hall ([[a s'] t] & -> & Hin)%list_elem_of_fmap.
  apply elem_of_groupby_mean in Hin as [(r & Hr & [= _ <-]) _].
  rewrite Forall_forall in Hall. by apply Hall.
Qed.

Lemma length_nonzero {A} (l : list A) : length l ≠ 0%nat → l ≠ [].
Proof. by destruct l. Qed.

Lemma sorted_labels_nonempty `{Ord K} (l : list K) :
  l ≠ [] → merge_sort kle (remove_dups l) ≠ [].
Proof.
  destruct l as [|x l]; [done|]. intros _ Hnil.
  assert (x ∈ merge_sort kle (remove_dups (x :: l))) as Hin.
  { rewrite merge_sort_Permutation, elem_of_remove_dups. apply list_elem_of_here. }
  rewrite Hnil in Hin. by apply not_elem_of_nil in Hin.
Qed.

Lemma plot_bar_nonempty (t : list (string * string * Qc)) :
  t ≠ [] → plot_bar (Pd.pivot_cells t) = inr (Bars (Pd.pivot_cells t)).
Proof.
  intros Ht. unfold plot_bar. rewrite decide_False; [done|]. simpl.
  apply (@sorted_labels_nonempty string _ string_Ord). by destruct t.
Qed.

(** The pivot of the distribution comparison has no duplicate labels. *)
Lemma distribution_pivot_returns (df : DataFrame) (dimension algo_group : string) :
  let t := (λ '(a, dim, dist, t), (a, dist, t))
             <$> distribution_group_data df dimension algo_group in
  Pd.pivot t = inr (Pd.pivot_cells t).
Proof.
  intros t. unfold Pd.pivot. rewrite decide_True; [done|].
  subst t. rewrite <-list_fmap_compose. apply NoDup_fmap_2_strong.
  - intros [[[a1 d1] s1] t1] [[[a2 d2] s2] t2] Hx Hy [= -> ->].
    unfold distribution_group_data in Hx, Hy.
    apply list_elem_of_filter in Hx as [_ Hx], Hy as [_ Hy].
    apply list_elem_of_filter in Hx as [-> Hx], Hy as [-> Hy].
    by eapply (NoDup_fst_inj _ _ _ (NoDup_groupby_mean_keys _ _ _) Hx Hy).
  - unfold distribution_group_data.
    do 2 apply NoDup_filter. apply NoDup_fst, NoDup_groupby_mean_keys.
Qed.

(** The pivot of the heatmap has no duplicate labels. *)
Lemma heatmap_pivot_returns (rows : list csv_row) (dimension algo_group : string) :
  let t := (λ '(a, name, dim, size, t), (size, name, t))
             <$> heatmap_group_data (derive <$> rows) dimension algo_group in
  Pd.pivot t = inr (Pd.pivot_cells t).
Proof.
  intros t. unfold Pd.pivot. rewrite decide_True; [done|].
  subst t. rewrite <-list_fmap_compose. apply NoDup_fmap_2_strong.
  - intros [[[[a1 n1] d1] s1] t1] [[[[a2 n2] d2] s2] t2] Hx Hy [= -> ->].
    unfold heatmap_group_data in Hx, Hy.
    apply list_elem_of_filter in Hx as [Hm1 Hx], Hy as [Hm2 Hy].
    apply list_elem_of_filter in Hx as [-> Hx], Hy as [-> Hy].
    assert (a1 = a2) as ->.
    { apply elem_of_groupby_mean in Hx as [(r1 & Hr1 & Hk1) _].
      apply elem_of_groupby_mean in Hy as [(r2 & Hr2 & Hk2) _].
      apply list_elem_of_filter in Hr1 as [_ Hr1], Hr2 as [_ Hr2].
      apply list_elem_of_fmap in Hr1 as (c1 & -> & _).
      apply list_elem_of_fmap in Hr2 as (c2 & -> & _).
      simpl in Hk1, Hk2. simplify_eq.
      by apply (algorithm_name_inj_in_group algo_group). }
    by eapply (NoDup_fst_inj _ _ _ (NoDup_groupby_mean_keys _ _ _) Hx Hy).
  - unfold heatmap_group_data.
    do 2 apply NoDup_filter. apply NoDup_fst, NoDup_groupby_mean_keys.
Qed.

Section ChartViews.
Context (writable : string → bool) (rows : list csv_row).
Context (Hsizes : Forall (λ c, int64 (csv_Size c)) rows).
Let df : DataFrame := derive <$> rows.

Ltac write_failures :=
  repeat first
    [ apply fails_only_on_write_for; intros ? ?
    | apply fails_only_on_write_savefig
    | apply fails_only_on_write_ret
    | apply fails_only_on_write_bind; [|intros ?] ].

Lemma plot_time_complexity_by_dimension_failures :
  fails_only_on_write writable (plot_time_complexity_by_dimension writable df).
Proof.
  unfold plot_time_complexity_by_dimension, ensure_dir, continue.
  apply fails_only_on_write_for; intros dimension _.
  apply fails_only_on_write_for; intros algo_group _. cbv zeta.
  case_decide as Hlen; [apply fails_only_on_write_ret|].
  apply length_nonzero in Hlen.
  apply (groupby_mean_nonempty (λ r, (Algorithm r, Size r)) ExecutionTime)
    in Hlen.
  destruct (min_max_nonempty
    ((λ '(a, size, t), size) <$>
       Pd.groupby_mean (λ r, (Algorithm r, Size r)) ExecutionTime
         (filter (λ r, AlgorithmGroup r = algo_group)
            (filter (λ r, Dimension r = dimension) df))))
    as [(lo & Hlo & Hlo_in) (hi & Hhi & Hhi_in)].
  { intros Hnil%fmap_nil_inv. done. }
  assert (Forall (λ r, int64 (Size r))
            (filter (λ r, AlgorithmGroup r = algo_group)
               (filter (λ r, Dimension r = dimension) df))) as Hall.
  { apply Forall_forall. intros r [_ [_ Hr]%list_elem_of_filter]%list_elem_of_filter.
    subst df. apply list_elem_of_fmap in Hr as (c & -> & Hc).
    rewrite Forall_forall in Hsizes. by apply Hsizes. }
  apply (complexity_sizes_int64 _ _ Hall) in Hlo_in, Hhi_in.
  eapply fails_only_on_write_bind_returns; [by rewrite Hlo|].
  eapply fails_only_on_write_bind_returns; [by rewrite Hhi|].
  eapply fails_only_on_write_bind_returns;
    [by rewrite (reference_curves_int64 _ _ Hlo_in Hhi_in)|].
  write_failures.
Qed.

Lemma plot_distribution_comparison_failures :
  fails_only_on_write writable (plot_distribution_comparison writable df).
Proof.
  unfold plot_distribution_comparison, ensure_dir, continue.
  apply fails_only_on_write_for; intros dimension _.
  apply fails_only_on_write_for; intros algo_group _. cbv zeta.
  case_decide as Hlen; [apply fails_only_on_write_ret|].
  apply length_nonzero in Hlen.
  rewrite distribution_pivot_returns.
  eapply fails_only_on_write_bind_returns; [done|].
  rewrite plot_bar_nonempty by (by intros ?%fmap_nil_inv).
  eapply fails_only_on_write_bind_returns; [done|].
  write_failures.
Qed.

Lemma plot_memory_usage_failures :
  fails_only_on_write writable (plot_memory_usage writable df).
Proof.
  unfold plot_memory_usage, ensure_dir, continue.
  apply fails_only_on_write_for; intros dimension _.
  apply fails_only_on_write_for; intros algo_group _. cbv zeta.
  case_decide; write_failures.
Qed.

Lemma plot_dimension_comparison_failures :
  fails_only_on_write writable (plot_dimension_comparison writable df).
Proof.
  unfold plot_dimension_comparison, ensure_dir. cbv zeta.
  apply fails_only_on_write_for; intros algo Halgo.
  apply elem_of_unique, list_elem_of_fmap in Halgo as (x & -> & Hx).
  destruct x as [[[[a n] d] s] t].
  assert ((a, n, d, s, t)
          ∈ filter (λ '(a', name, dim, size, t), a' = a)
              (Pd.groupby_mean
                 (λ r, (Algorithm r, AlgorithmName r, Dimension r, Size r))
                 ExecutionTime df)) as Hin
    by (by apply list_elem_of_filter).
  destruct (filter (λ '(a', name, dim, size, t), a' = a) _) as [|y ys];
    [by apply not_elem_of_nil in Hin|].
  eapply fails_only_on_write_bind_returns; [done|].
  write_failures.
Qed.

Lemma plot_performance_heatmap_failures :
  fails_only_on_write writable (plot_performance_heatmap writable df).
Proof.
  unfold plot_performance_heatmap, ensure_dir, continue.
  apply fails_only_on_write_for; intros dimension _.
  apply fails_only_on_write_for; intros algo_group _. cbv zeta.
  case_decide as Hlen; [apply fails_only_on_write_ret|].
  subst df. rewrite heatmap_pivot_returns.
  eapply fails_only_on_write_bind_returns; [done|].
  write_failures.
Qed.

Lemma plot_relative_speedup_failures :
  fails_only_on_write writable (plot_relative_speedup writable df).
Proof.
  unfold plot_relative_speedup, relative_speedup_of_group, ensure_dir, continue.
  apply fails_only_on_write_for; intros dimension _.
  apply fails_only_on_write_for; intros algo_group _. cbv zeta.
  case_decide; write_failures.
Qed.

End ChartViews.

(** Without the bound on the sizes the first view can fail on the data: on a
    row of size 2^64 the reference curves raise [TypeError], no figure is
    saved, and [main] reports the error. *)
Example complexity_view_on_huge_size :
  (∃ msg,
     plot_time_complexity_by_dimension (λ _, true) (derive <$> [huge_size_row])
     = Run [] (inl (TypeError msg)))
  ∧ saved_paths (trace (main (λ _, inr [huge_size_row]) (λ _, true))) = [].
Proof. split; [eexists|]; by vm_compute. Qed.



(** ** The dashboard *)

Lemma complexity_panel_raises (df : DataFrame) (dimension algo_group : string) :
  filter (λ r, Py.str_in (marker_of algo_group) (Algorithm r) = true)
    (filter (λ r, Dimension r = dimension) df) = [] →
  plot_time_complexity_dashboard df dimension algo_group
  = Run [] (inl (ValueError "min() arg is an empty sequence")).
Proof. intros Hnil. unfold plot_time_complexity_dashboard. by rewrite Hnil. Qed.

Lemma complexity_panel_returns (df : DataFrame) (dimension algo_group : string) :
  filter (λ r, Py.str_in (marker_of algo_group) (Algorithm r) = true)
    (filter (λ r, Dimension r = dimension) df) ≠ [] →
  Forall (λ r, int64 (Size r)) df →
  ∃ artists,
    plot_time_complexity_dashboard df dimension algo_group
    = Run [] (inr artists).
Proof.
  intros Hne Hsizes. unfold plot_time_complexity_dashboard. cbv zeta.
  set (group_data := filter _ (filter _ df)) in *.
  assert (Forall (λ r, int64 (Size r)) group_data) as Hall.
  { apply Forall_forall.
    intros r [_ [_ Hr]%list_elem_of_filter]%list_elem_of_filter.
    rewrite Forall_forall in Hsizes. by apply Hsizes. }
  apply (groupby_mean_nonempty (λ r, (Algorithm r, Size r)) ExecutionTime)
    in Hne.
  destruct (min_max_nonempty
    ((λ '(a, size, t), size) <$>
       Pd.groupby_mean (λ r, (Algorithm r, Size r)) ExecutionTime group_data))
    as [(lo & Hlo & Hlo_in) (hi & Hhi & Hhi_in)].
  { by intros Hnil%fmap_nil_inv. }
  apply (complexity_sizes_int64 _ _ Hall) in Hlo_in, Hhi_in.
  rewrite Hlo, Hhi. rewrite (bind_returns (lift (inr lo)) _ lo eq_refl).
  rewrite (bind_returns (lift (inr hi)) _ hi eq_refl).
  rewrite (reference_curves_int64 _ _ Hlo_in Hhi_in).
  eexists. reflexivity.
Qed.

Lemma distribution_panel_raises (df : DataFrame) (dimension algo_group : string) :
  dashboard_distribution_grouped df dimension algo_group = [] →
  plot_distribution_dashboard df dimension algo_group
  = Run [] (inl (TypeError "no numeric data to plot")).
Proof. intros Hnil. unfold plot_distribution_dashboard. by rewrite Hnil. Qed.

Lemma distribution_panel_returns (df : DataFrame)
    (dimension algo_group : string) :
  dashboard_distribution_grouped df dimension algo_group ≠ [] →
  ∃ artists,
    plot_distribution_dashboard df dimension algo_group = Run [] (inr artists).
Proof.
  intros Hne. unfold plot_distribution_dashboard. cbv zeta.
  assert (Pd.pivot (dashboard_distribution_grouped df dimension algo_group)
          = inr (Pd.pivot_cells
                   (dashboard_distribution_grouped df dimension algo_group)))
    as ->.
  { unfold Pd.pivot. rewrite decide_True; [done|].
    apply NoDup_groupby_mean_keys. }
  rewrite (bind_returns (lift (inr _)) _ _ eq_refl).
  rewrite plot_bar_nonempty by done.
  rewrite (bind_returns (lift (inr _)) _ _ eq_refl).
  eexists. reflexivity.
Qed.

Lemma speedup_panel_returns (df : DataFrame) (dimension : string) :
  ∃ artists, plot_speedup_dashboard df dimension = Run [] (inr artists).
Proof. eexists. reflexivity. Qed.

Ltac dashboard_panel raises returns :=
  match goal with
  | |- context [bind (?panel ?df ?d ?g) _] =>
      first
        [ let E := fresh "E" in
          pose proof (raises df d g) as E;
          match type of E with
          | ?rows = [] → _ =>
              let Hrows := fresh "Hrows" in
              destruct (decide (rows = [])) as [Hrows|Hrows];
              [ rewrite (E Hrows), (bind_raises (Run [] (inl _)) _ _ eq_refl); simpl;
                split; [split; [done|tauto]|done]
              | clear E;
                let a := fresh "ax" in
                let Ha := fresh "Hax" in
                destruct (returns d g Hrows) as [a Ha];
                rewrite Ha, (bind_returns (Run [] (inr a)) _ a eq_refl); simpl ]
          end ]
  end.



(** ** The order of the points of a curve *)

Lemma StronglySorted_fmap_inv {A B} (f : A → B) (Rel : relation B) (l : list A) :
  StronglySorted Rel (f <$> l) → StronglySorted (λ x y, Rel (f x) (f y)) l.
Proof.
  induction l as [|a l IH]; [constructor|].
  rewrite fmap_cons. intros [Hs Ha]%StronglySorted_inv.
  constructor; [by apply IH|]. apply Forall_forall. intros y Hy.
  rewrite Forall_forall in Ha. by apply Ha, list_elem_of_fmap_2.
Qed.

Lemma StronglySorted_fmap_elem_of {A B} (f : A → B) (R1 : relation A)
    (R2 : relation B) (l : list A) :
  (∀ x y, x ∈ l → y ∈ l → R1 x y → R2 (f x) (f y)) →
  StronglySorted R1 l → StronglySorted R2 (f <$> l).
Proof.
  intros Hf Hs. induction Hs as [|a l Hl IH Ha]; [constructor|].
  rewrite fmap_cons. constructor.
  - apply IH. intros x y Hx Hy. apply Hf; by apply list_elem_of_further.
  - rewrite Forall_fmap. rewrite Forall_forall in Ha. apply Forall_forall.
    intros y Hy. apply Hf; [apply list_elem_of_here|
                            by apply list_elem_of_further|by apply Ha].
Qed.

Lemma StronglySorted_lt_NoDup (l : list Z) : StronglySorted Z.lt l → NoDup l.
Proof.
  induction 1 as [|a l Hl IH Ha]; [constructor|].
  apply NoDup_cons. split; [|done]. intros Hin.
  rewrite Forall_forall in Ha. apply Ha in Hin. lia.
Qed.

Lemma strict_kle_snd `{OrdLaws A} `{OrdLaws B} (a : A) (b1 b2 : B) :
  strict kle (a, b1) (a, b2) → strict kle b1 b2.
Proof.
  unfold strict. cbn [kle prod_Ord]. unfold prod_kle. simpl.
  by rewrite !decide_True by done.
Qed.

Lemma strict_kle_fst `{OrdLaws A} `{OrdLaws B} (a1 a2 : A) (b : B) :
  strict kle (a1, b) (a2, b) → strict kle a1 a2.
Proof.
  unfold strict. cbn [kle prod_Ord]. unfold prod_kle. simpl.
  destruct (decide (a1 = a2)) as [->|Hne].
  - rewrite decide_True by done. by intros [? []].
  - by rewrite decide_False by done.
Qed.

Lemma strict_kle_Z (x y : Z) : strict kle x y → (x < y)%Z.
Proof. unfold strict. cbn [kle Z_Ord]. lia. Qed.

Lemma groupby_mean_rows_sorted {R} `{OrdLaws K} (key : R → K) (val : R → Qc)
    (df : list R) :
  StronglySorted (λ x y, strict kle x.1 y.1) (Pd.groupby_mean key val df).
Proof.
  apply (StronglySorted_fmap_inv fst). rewrite groupby_mean_keys.
  apply StronglySorted_strict; [apply _|..].
  - apply StronglySorted_group_keys.
  - apply NoDup_group_keys.
Qed.

(** X16: in the table of means by algorithm and size that the complexity
    charts plot, the rows of one algorithm come with strictly increasing
    sizes: every curve runs from left to right and has one point per size. *)
Theorem complexity_curve_sizes_increase (df : DataFrame) (algo : string) :
  let plot_data :=
    Pd.groupby_mean (λ r, (Algorithm r, Size r)) ExecutionTime df in
  let algo_data := filter (λ '(a, size, t), a = algo) plot_data in
  StronglySorted Z.lt ((λ '(a, size, t), size) <$> algo_data).
Proof.
  intros plot_data algo_data.
  apply (StronglySorted_fmap_elem_of _ (λ x y, strict kle x.1 y.1)).
  - intros [[a1 s1] t1] [[a2 s2] t2] [-> _]%list_elem_of_filter
      [-> _]%list_elem_of_filter Hlt. simpl in Hlt.
    by apply strict_kle_Z, (strict_kle_snd algo).
  - apply StronglySorted_filter, groupby_mean_rows_sorted.
Qed.

Lemma merge_on_size_sizes {L} (size_of : L → Z) (left : list L)
    (right : list (Z * Qc)) :
  NoDup right.*1 →
  (λ p, size_of p.1) <$> Pd.merge_on_size size_of left right
  = filter (λ s, s ∈ right.*1) (size_of <$> left).
Proof.
  intros Hnd. unfold Pd.merge_on_size.
  induction left as [|l left IH]; [done|].
  rewrite bind_cons, fmap_app, IH, fmap_cons, filter_cons.
  destruct (decide (size_of l ∈ right.*1)) as [Hin|Hin].
  - apply list_elem_of_fmap in Hin as ([s t] & Hs & Hr). simpl in Hs. subst s.
    pose proof (group_singleton fst right _ Hnd Hr) as Hg.
    unfold Pd.group in Hg. simpl in Hg. rewrite Hg. done.
  - rewrite filter_none; [done|]. intros [s t] Hr Hs. simpl in Hs. subst s.
    apply Hin. by apply (list_elem_of_fmap_2 fst) in Hr.
Qed.

(** X17: the points of every speedup curve come with strictly increasing
    sizes, so that no size is plotted twice on a curve. *)
Theorem speedup_curve_sizes_increase (rows : list csv_row)
    (dimension marker dist naive_algo algo : string) :
  StronglySorted Z.lt
    (fst <$> speedup_points sr_Algorithm sr_Size sr_ExecutionTime naive_algo
               (speedup_dist_data (derive <$> rows) dimension marker dist)
               algo).
Proof.
  set (dist_data := speedup_dist_data (derive <$> rows) dimension marker dist).
  assert (∀ a, StronglySorted Z.lt
            (sr_Size <$> filter (λ x, sr_Algorithm x = a) dist_data)) as Hsorted.
  { intros a.
    apply (StronglySorted_fmap_elem_of _ (λ x y, strict kle x.1 y.1)).
    - intros x y [Hax Hx]%list_elem_of_filter [Hay Hy]%list_elem_of_filter.
      apply elem_of_speedup_dist_data in Hx as (a1 & s1 & -> & _).
      apply elem_of_speedup_dist_data in Hy as (a2 & s2 & -> & _).
      simpl in *. subst a1 a2. intros Hlt.
      by apply strict_kle_Z, (strict_kle_snd (a, algorithm_name a, dimension)),
        (strict_kle_fst _ _ dist).
    - apply StronglySorted_filter. subst dist_data.
      unfold speedup_dist_data, speedup_group_data, speedup_grouped.
      do 3 apply StronglySorted_filter. apply groupby_mean_rows_sorted. }
  assert (fst <$> speedup_points sr_Algorithm sr_Size sr_ExecutionTime
                    naive_algo dist_data algo
          = (λ p, sr_Size p.1)
              <$> Pd.merge_on_size sr_Size
                    (filter (λ x, sr_Algorithm x = algo) dist_data)
                    ((λ x, (sr_Size x, sr_ExecutionTime x))
                       <$> filter (λ x, sr_Algorithm x = naive_algo) dist_data))
    as ->.
  { unfold speedup_points. rewrite <-list_fmap_compose.
    apply list_fmap_ext. by intros i [x t] _. }
  rewrite merge_on_size_sizes.
  - apply StronglySorted_filter, Hsorted.
  - rewrite <-list_fmap_compose. apply StronglySorted_lt_NoDup, Hsorted.
Qed.

(** ** Pivot tables *)

Section Pivot.
Context `{Ord Ix} `{Ord Col}.

Lemma cell_lookup (t : list (Ix * Col * Qc)) (i : Ix) (c : Col) (v : Qc) :
  NoDup t.*1 → (i, c, v) ∈ t → Pd.cell t i c = Some v.
Proof.
  intros Hnd Hin. unfold Pd.cell.
  pose proof (group_singleton fst t _ Hnd Hin) as Hg.
  unfold Pd.group in Hg. simpl in Hg. by rewrite Hg.
Qed.

Lemma cell_missing (t : list (Ix * Col * Qc)) (i : Ix) (c : Col) :
  Pd.cell t i c = None ↔ (i, c) ∉ t.*1.
Proof.
  unfold Pd.cell. split.
  - intros Hnone Hin. apply list_elem_of_fmap in Hin as ([k v] & Hk & Hin).
    simpl in Hk. subst k.
    assert ((i, c, v) ∈ filter (λ x, x.1 = (i, c)) t) as Hf
      by (by apply list_elem_of_filter).
    destruct (filter _ t); [by apply not_elem_of_nil in Hf|done].
  - intros Hnot. rewrite filter_none; [done|].
    intros [k v] Hin Hk. simpl in Hk. subst k.
    apply Hnot. by apply (list_elem_of_fmap_2 fst) in Hin.
Qed.

(** X18: when [pivot] returns, every row of its input is found in the table
    at the position of its index and column labels, a cell is empty exactly
    when no row has its pair of labels, and the table is rectangular. *)
Theorem pivot_holds_every_row (t : list (Ix * Col * Qc))
    (p : Pd.pivot_table Ix Col) :
  Pd.pivot t = inr p →
  (∀ i c v, (i, c, v) ∈ t →
     i ∈ Pd.pv_index p ∧ c ∈ Pd.pv_columns p ∧ Pd.cell t i c = Some v)
  ∧ (∀ n m i c,
       Pd.pv_index p !! n = Some i → Pd.pv_columns p !! m = Some c →
       Pd.pv_cells p !! n ≫= (λ cells, cells !! m) = Some (Pd.cell t i c))
  ∧ (∀ i c, Pd.cell t i c = None ↔ (i, c) ∉ t.*1)
  ∧ length (Pd.pv_cells p) = length (Pd.pv_index p)
  ∧ Forall (λ cells, length cells = length (Pd.pv_columns p)) (Pd.pv_cells p).
Proof.
  unfold Pd.pivot. case_decide as Hnd; [|done]. intros [= <-].
  unfold Pd.pivot_cells. simpl. split; [|split; [|split; [|split]]].
  - intros i c v Hin. split; [|split].
    + rewrite merge_sort_Permutation, elem_of_remove_dups.
      by apply (list_elem_of_fmap_2 (λ x, x.1.1)) in Hin.
    + rewrite merge_sort_Permutation, elem_of_remove_dups.
      by apply (list_elem_of_fmap_2 (λ x, x.1.2)) in Hin.
    + by apply cell_lookup.
  - intros n m i c Hi Hc. rewrite list_lookup_fmap, Hi. simpl.
    by rewrite list_lookup_fmap, Hc.
  - apply cell_missing.
  - by rewrite length_fmap.
  - apply Forall_fmap, Forall_forall. intros i _. simpl. by rewrite length_fmap.
Qed.

End Pivot.

Lemma pivot_holds_every_row_witness :
  Pd.cell [(100%Z, "KD-Tree", ms 2); (100%Z, "Adaptive", ms 4)] 100%Z "KD-Tree"
  = Some (ms 2).
Proof.
  refine (proj2 (proj2 (proj1 (pivot_holds_every_row
    [(100%Z, "KD-Tree", ms 2); (100%Z, "Adaptive", ms 4)]
    (Pd.pivot_cells [(100%Z, "KD-Tree", ms 2); (100%Z, "Adaptive", ms 4)])
    _) 100%Z "KD-Tree" (ms 2) _))).
  - reflexivity.
  - apply list_elem_of_here.
Defined.

(** ** The speedup panel of the dashboard *)

Lemma plot_speedup_dashboard_data (df : DataFrame) (dimension : string) :
  plot_speedup_dashboard df dimension
  = ret (((λ '(algo, points), Curve ("CP: " ++ algorithm_name algo) points)
            <$> speedup_result ds_Algorithm ds_Size ds_ExecutionTime
                  "CLOSEST_PAIR_NAIVE"
                  (dashboard_speedup_data df dimension "CLOSEST_PAIR"))
         ++ ((λ '(algo, points), Curve ("DM: " ++ algorithm_name algo) points)
               <$> speedup_result ds_Algorithm ds_Size ds_ExecutionTime
                     "DIAMETER_NAIVE"
                     (dashboard_speedup_data df dimension "DIAMETER")))%list.
Proof. reflexivity. Qed.

Lemma elem_of_dashboard_speedup_data (rows : list csv_row)
    (dimension marker : string) (x : string * string * Z * Qc) :
  let df := derive <$> rows in
  x ∈ dashboard_speedup_data df dimension marker ↔
  ∃ a s, x = (a, algorithm_name a, s,
              Pd.mean (observations df dimension "UNIFORM" a s))
    ∧ Py.str_in marker a = true
    ∧ observations df dimension "UNIFORM" a s ≠ [].
Proof.
  intros df. unfold dashboard_speedup_data. cbv zeta.
  rewrite list_elem_of_filter. destruct x as [[[a n] s] t].
  assert (∀ r, r ∈ df → AlgorithmName r = algorithm_name (Algorithm r)) as Hname.
  { subst df. intros r (c & -> & _)%list_elem_of_fmap. done. }
  assert (∀ a s,
    Pd.group (λ r, (Algorithm r, AlgorithmName r, Size r))
      (a, algorithm_name a, s)
      (filter (λ r, Distribution r = "UNIFORM")
         (filter (λ r, Dimension r = dimension) df))
    = filter (λ r, Algorithm r = a ∧ Dimension r = dimension ∧ Size r = s
                   ∧ Distribution r = "UNIFORM") df) as Hgroup.
  { intros a' s'. unfold Pd.group. rewrite !list_filter_filter.
    apply filter_ext_elem_of. intros r Hr. split.
    - intros Hc.
      assert ((Algorithm r, AlgorithmName r, Size r) = (a', algorithm_name a', s')
              ∧ Distribution r = "UNIFORM" ∧ Dimension r = dimension)
        as ([= Ha _ Hs] & Hu & Hd) by tauto.
      done.
    - intros (Ha & Hd & Hs & Hu).
      assert ((Algorithm r, AlgorithmName r, Size r)
              = (a', algorithm_name a', s')) by (by rewrite (Hname r Hr), Ha, Hs).
      tauto. }
  split.
  - intros [Hm Hin].
    apply elem_of_groupby_mean in Hin as [(r & Hr & Hk) ->].
    apply list_elem_of_filter in Hr as [Hu Hr].
    apply list_elem_of_filter in Hr as [Hd Hr].
    injection Hk as <- <- <-. rewrite (Hname r Hr).
    exists (Algorithm r), (Size r). rewrite Hgroup. split; [done|].
    split; [done|]. apply observations_nonempty. eauto 10.
  - intros (a' & s' & [= -> -> -> ->] & Hm & Hobs). split; [done|].
    apply observations_nonempty in Hobs as (r & Hr & Ha & Hd & Hs & Hu).
    apply elem_of_groupby_mean. split.
    + exists r. split.
      { apply list_elem_of_filter. split; [done|].
        by apply list_elem_of_filter. }
      by rewrite (Hname r Hr), Ha, Hs.
    + by rewrite Hgroup.
Qed.

(** X19: the speedup panel of the dashboard plots, for every algorithm and
    size, the same value as the speedup chart of the [UNIFORM] distribution
    of the same dimension and group: taking the means after selecting the
    rows or before gives the same speedups. *)
Theorem dashboard_speedup_agrees (rows : list csv_row)
    (dimension marker naive_algo algo : string) (s : Z) (v : npfloat) :
  let df := derive <$> rows in
  (s, v) ∈ speedup_points ds_Algorithm ds_Size ds_ExecutionTime naive_algo
             (dashboard_speedup_data df dimension marker) algo
  ↔ (s, v) ∈ speedup_points sr_Algorithm sr_Size sr_ExecutionTime naive_algo
               (speedup_dist_data df dimension marker "UNIFORM") algo.
Proof.
  intros df. subst df. rewrite elem_of_speedup_points_observations.
  rewrite elem_of_speedup_points. split.
  - intros (x & y & Hx & Hy & Hax & Hay & Hs & -> & ->).
    apply elem_of_dashboard_speedup_data in Hx as (a1 & s1 & -> & Hm1 & Ho1).
    apply elem_of_dashboard_speedup_data in Hy as (a2 & s2 & -> & Hm2 & Ho2).
    simpl in *. subst. done.
  - intros (Hm1 & Hm2 & Ho1 & Ho2 & ->).
    exists (algo, algorithm_name algo, s,
            Pd.mean (observations (derive <$> rows) dimension "UNIFORM" algo s)),
      (naive_algo, algorithm_name naive_algo, s,
       Pd.mean (observations (derive <$> rows) dimension "UNIFORM" naive_algo s)).
    split; [apply elem_of_dashboard_speedup_data; by eauto|].
    split; [apply elem_of_dashboard_speedup_data; by eauto|]. done.
Qed.

(** ** Identifiers outside the two groups *)

Lemma marker_of_cases (algo_group : string) :
  marker_of algo_group = "CLOSEST_PAIR" ∨ marker_of algo_group = "DIAMETER".
Proof. unfold marker_of. destruct (String.eqb _ _); auto. Qed.

(** X20: the rows of an algorithm whose identifier contains neither
    [CLOSEST_PAIR] nor [DIAMETER] are put in the [Diameter] group by the
    complexity view, which selects on the group column, but they are in no
    table of the distribution, heatmap and speedup views, which select on the
    identifier. *)
Theorem unmarked_algorithm_is_dropped (rows : list csv_row) (c : csv_row)
    (dimension algo_group : string) :
  let df := derive <$> rows in
  let a := csv_Algorithm c in
  Py.str_in "CLOSEST_PAIR" a = false → Py.str_in "DIAMETER" a = false →
  AlgorithmGroup (derive c) = "Diameter"
  ∧ (a ∉ (λ '(a, dim, dist, t), a)
           <$> distribution_group_data df dimension algo_group)
  ∧ (a ∉ (λ '(a, name, dim, size, t), a)
           <$> heatmap_group_data df dimension algo_group)
  ∧ (a ∉ sr_Algorithm
           <$> speedup_group_data df dimension (marker_of algo_group))
  ∧ (a ∉ ds_Algorithm
           <$> dashboard_speedup_data df dimension (marker_of algo_group)).
Proof.
  intros df a Hcp Hdm.
  assert (Py.str_in (marker_of algo_group) a = false) as Hm
    by (by destruct (marker_of_cases algo_group) as [-> | ->]).
  split; [|split; [|split; [|split]]].
  - simpl. unfold algorithm_group. fold a. by rewrite Hcp.
  - intros ([[[a' d] ds] t] & -> & Hin)%list_elem_of_fmap.
    unfold distribution_group_data in Hin.
    apply list_elem_of_filter in Hin as [Hin _]. congruence.
  - intros ([[[[a' n] d] s] t] & -> & Hin)%list_elem_of_fmap.
    unfold heatmap_group_data in Hin.
    apply list_elem_of_filter in Hin as [Hin _]. congruence.
  - intros ([[[[[a' n] d] s] ds] t] & -> & Hin)%list_elem_of_fmap.
    unfold speedup_group_data in Hin.
    apply list_elem_of_filter in Hin as [Hin _]. simpl in *. congruence.
  - intros ([[[a' n] s] t] & -> & Hin)%list_elem_of_fmap.
    unfold dashboard_speedup_data in Hin.
    apply list_elem_of_filter in Hin as [Hin _]. simpl in *. congruence.
Qed.

Lemma unmarked_algorithm_is_dropped_witness :
  let c := CsvRow "QUICKHULL_FAST" "TWO_D" 100 "UNIFORM" (ms 1) (ms 1) in
  AlgorithmGroup (derive c) = "Diameter"
  ∧ (csv_Algorithm c ∉ (λ '(a, dim, dist, t), a)
       <$> distribution_group_data (derive <$> [c]) "TWO_D" "Diameter").
Proof.
  intros c.
  destruct (unmarked_algorithm_is_dropped [c] c "TWO_D" "Diameter")
    as (Hgroup & Hdist & _); [reflexivity..|].
  split; assumption.
Defined.

(** ** Columns that no view reads *)

Lemma filter_fmap {A B} (f : A → B) (P : B → Prop) `{!∀ y, Decision (P y)}
    (l : list A) :
  filter P (f <$> l) = f <$> filter (λ x, P (f x)) l.
Proof.
  induction l as [|a l IH]; [done|].
  rewrite fmap_cons, !filter_cons, IH. by case_decide.
Qed.

Lemma groupby_mean_fmap {R R'} `{Ord K} (f : R' → R) (key : R → K)
    (val : R → Qc) (df : list R') :
  Pd.groupby_mean key val (f <$> df)
  = Pd.groupby_mean (λ r, key (f r)) (λ r, val (f r)) df.
Proof.
  unfold Pd.groupby_mean, Pd.group_keys, Pd.group.
  rewrite <-list_fmap_compose. apply list_fmap_ext. intros _ k _.
  by rewrite filter_fmap, <-list_fmap_compose.
Qed.

Ltac push_blank :=
  unfold DataFrame in *; cbv zeta;
  repeat first [rewrite filter_fmap | rewrite groupby_mean_fmap
               | rewrite length_fmap ];
  try reflexivity.

Section Blank.
Context (df : DataFrame).

Lemma largest_data_blank :
  largest_data (blank_unused <$> df) = blank_unused <$> largest_data df.
Proof.
  unfold largest_data. rewrite <-list_fmap_compose. push_blank.
Qed.

Lemma distribution_group_data_blank dimension algo_group :
  distribution_group_data (blank_unused <$> df) dimension algo_group
  = distribution_group_data df dimension algo_group.
Proof.
  unfold distribution_group_data. rewrite largest_data_blank. push_blank.
Qed.

Lemma heatmap_group_data_blank dimension algo_group :
  heatmap_group_data (blank_unused <$> df) dimension algo_group
  = heatmap_group_data df dimension algo_group.
Proof.
  unfold heatmap_group_data. push_blank.
Qed.

Lemma dashboard_distribution_grouped_blank dimension algo_group :
  dashboard_distribution_grouped (blank_unused <$> df) dimension algo_group
  = dashboard_distribution_grouped df dimension algo_group.
Proof.
  unfold dashboard_distribution_grouped. rewrite largest_data_blank.
  push_blank.
Qed.

Lemma speedup_group_data_blank dimension marker :
  speedup_group_data (blank_unused <$> df) dimension marker
  = speedup_group_data df dimension marker.
Proof.
  unfold speedup_group_data, speedup_grouped. push_blank.
Qed.

Context (writable : string → bool).

Lemma plot_time_complexity_by_dimension_blank :
  plot_time_complexity_by_dimension writable (blank_unused <$> df)
  = plot_time_complexity_by_dimension writable df.
Proof.
  unfold plot_time_complexity_by_dimension.
  apply for_ext. intros dimension _. apply for_ext. intros algo_group _.
  push_blank.
Qed.

Lemma plot_distribution_comparison_blank :
  plot_distribution_comparison writable (blank_unused <$> df)
  = plot_distribution_comparison writable df.
Proof.
  unfold plot_distribution_comparison.
  apply for_ext. intros dimension _. apply for_ext. intros algo_group _.
  by rewrite distribution_group_data_blank.
Qed.

Lemma plot_memory_usage_blank :
  plot_memory_usage writable (blank_unused <$> df)
  = plot_memory_usage writable df.
Proof. unfold plot_memory_usage. push_blank. Qed.

Lemma plot_dimension_comparison_blank :
  plot_dimension_comparison writable (blank_unused <$> df)
  = plot_dimension_comparison writable df.
Proof. unfold plot_dimension_comparison. push_blank. Qed.

Lemma plot_performance_heatmap_blank :
  plot_performance_heatmap writable (blank_unused <$> df)
  = plot_performance_heatmap writable df.
Proof.
  unfold plot_performance_heatmap.
  apply for_ext. intros dimension _. apply for_ext. intros algo_group _.
  by rewrite heatmap_group_data_blank.
Qed.

Lemma plot_relative_speedup_blank :
  plot_relative_speedup writable (blank_unused <$> df)
  = plot_relative_speedup writable df.
Proof.
  unfold plot_relative_speedup.
  apply for_ext. intros dimension _. apply for_ext. intros algo_group _.
  unfold relative_speedup_of_group, speedup_dist_data.
  by rewrite speedup_group_data_blank.
Qed.

Lemma create_unified_dashboard_blank :
  create_unified_dashboard writable (blank_unused <$> df)
  = create_unified_dashboard writable df.
Proof.
  unfold create_unified_dashboard, plot_time_complexity_dashboard,
    plot_distribution_dashboard, plot_speedup_dashboard.
  rewrite !dashboard_distribution_grouped_blank. push_blank.
Qed.

End Blank.

(** X21: no view reads the columns [AlgorithmType], [AlgorithmVariant] and
    [LogExecutionTime]: blanking them in every row changes nothing in what any
    of the seven views saves or raises.  In particular the [-inf] and [nan]
    of the logarithm column never reach a chart. *)
Theorem views_ignore_unused_columns (writable : string → bool)
    (df : DataFrame) :
  Forall (λ view, view (blank_unused <$> df) = view df) (views writable).
Proof.
  unfold views. repeat apply Forall_cons_2.
  - apply plot_time_complexity_by_dimension_blank.
  - apply plot_distribution_comparison_blank.
  - apply plot_memory_usage_blank.
  - apply plot_dimension_comparison_blank.
  - apply plot_performance_heatmap_blank.
  - apply plot_relative_speedup_blank.
  - apply create_unified_dashboard_blank.
  - apply Forall_nil_2.
Qed.

(** * The values of the tables, in float64 *)

(** ** Means by group *)

Section F64Grouping.
Context {R : Type} `{OrdLaws K}.
Implicit Types (key : R → K) (val : R → F64.float64) (df : list R).

Lemma f64_elem_of_groupby_mean key val df k v :
  (k, v) ∈ F64.groupby_mean key val df ↔
  (∃ r, r ∈ df ∧ key r = k) ∧ v = F64.mean (val <$> Pd.group key k df).
Proof.
  unfold F64.groupby_mean. rewrite list_elem_of_fmap. split.
  - intros (k' & Heq & Hk). simplify_eq. by apply elem_of_group_keys in Hk.
  - intros [Hk ->]. exists k. split; [done|]. by apply elem_of_group_keys.
Qed.

Lemma f64_groupby_mean_keys key val df :
  (F64.groupby_mean key val df).*1 = Pd.group_keys key df.
Proof.
  unfold F64.groupby_mean. rewrite <-list_fmap_compose.
  rewrite <-(list_fmap_id (Pd.group_keys key df)) at 2. by apply list_fmap_ext.
Qed.

(** Two orders of the same rows give the same groups, in the same order. *)
Lemma f64_groupby_mean_keys_perm key val df1 df2 :
  df1 ≡ₚ df2 →
  (F64.groupby_mean key val df1).*1 = (F64.groupby_mean key val df2).*1.
Proof. intros Hp. rewrite !f64_groupby_mean_keys. by apply group_keys_perm. Qed.

(** The table is the same when every group has its values in the same
    order. *)
Lemma f64_groupby_mean_same_groups key val df1 df2 :
  df1 ≡ₚ df2 →
  (∀ k, val <$> Pd.group key k df1 = val <$> Pd.group key k df2) →
  F64.groupby_mean key val df1 = F64.groupby_mean key val df2.
Proof.
  intros Hp Hg. unfold F64.groupby_mean. rewrite (group_keys_perm _ _ _ Hp).
  apply list_fmap_ext. intros _ k _. by rewrite Hg.
Qed.

(** A group of a data frame without two rows of the same key has one row at
    most. *)
Lemma group_NoDup key k df :
  NoDup (key <$> df) → (length (Pd.group key k df) ≤ 1)%nat.
Proof.
  unfold Pd.group. induction df as [|r df IH]; simpl; [lia|].
  intros [Hr Hnd]%NoDup_cons. rewrite filter_cons.
  destruct (decide (key r = k)) as [<-|_]; [|by apply IH].
  rewrite filter_none; [simpl; lia|].
  intros r' Hr' Heq. apply Hr. rewrite <-Heq. by apply list_elem_of_fmap_2.
Qed.

Lemma f64_groupby_mean_single_rows key val df1 df2 :
  df1 ≡ₚ df2 → NoDup (key <$> df1) →
  F64.groupby_mean key val df1 = F64.groupby_mean key val df2.
Proof.
  intros Hp Hnd. apply f64_groupby_mean_same_groups; [done|]. intros k.
  pose proof (group_perm key k _ _ Hp) as Hg.
  pose proof (group_NoDup key k df1 Hnd) as Hlen.
  destruct (Pd.group key k df1) as [|r [|r' l]]; simpl in Hlen; [| |lia].
  - apply Permutation_nil_l in Hg. by rewrite <-Hg.
  - apply Permutation_singleton_l in Hg. by rewrite Hg.
Qed.

End F64Grouping.

(** ** Speedups *)

Lemma f64_elem_of_merge_on_size {L} (size_of : L → Z) (left : list L)
    (right : list (Z * F64.float64)) (l : L) (t : F64.float64) :
  (l, t) ∈ F64.merge_on_size size_of left right ↔
  l ∈ left ∧ (size_of l, t) ∈ right.
Proof.
  unfold F64.merge_on_size. rewrite list_elem_of_bind. split.
  - intros (l' & Hin & Hl'). apply list_elem_of_fmap in Hin as ([s t'] & Heq & Hr).
    apply list_elem_of_filter in Hr as [Hs Hr]. simpl in *. by simplify_eq.
  - intros [Hl Hr]. exists l. split; [|done].
    apply list_elem_of_fmap. exists (size_of l, t). split; [done|].
    by apply list_elem_of_filter.
Qed.

(** A point of the speedup of [algo]: a row of [algo] and a row of the naive
    algorithm of the same size, and the quotient of their times. *)
Lemma f64_elem_of_speedup_points naive_algo (data : list F64.speedup_row)
    algo s v :
  (s, v) ∈ F64.speedup_points naive_algo data algo ↔
  ∃ x y, x ∈ data ∧ y ∈ data ∧ F64.sr_Algorithm x = algo
    ∧ F64.sr_Algorithm y = naive_algo ∧ F64.sr_Size y = F64.sr_Size x
    ∧ s = F64.sr_Size x
    ∧ v = F64.div (F64.sr_ExecutionTime y) (F64.sr_ExecutionTime x).
Proof.
  unfold F64.speedup_points. rewrite list_elem_of_fmap. split.
  - intros ([x t] & Heq & Hin).
    apply f64_elem_of_merge_on_size in Hin as [Hx Hy].
    apply list_elem_of_filter in Hx as [Hax Hx].
    apply list_elem_of_fmap in Hy as (y & Hy1 & Hy).
    apply list_elem_of_filter in Hy as [Hay Hy].
    injection Heq as -> ->. injection Hy1 as Hs Ht.
    exists x, y. by rewrite Ht.
  - intros (x & y & Hx & Hy & Hax & Hay & Hs & -> & ->).
    exists (x, F64.sr_ExecutionTime y). split; [done|].
    apply f64_elem_of_merge_on_size. split; [by apply list_elem_of_filter|].
    apply list_elem_of_fmap. exists y. rewrite Hs. split; [done|].
    by apply list_elem_of_filter.
Qed.

Lemma f64_elem_of_speedup_result naive_algo (data : list F64.speedup_row)
    algo pts :
  (algo, pts) ∈ F64.speedup_result naive_algo data ↔
  algo ≠ naive_algo ∧ (∃ x, x ∈ data ∧ F64.sr_Algorithm x = algo)
  ∧ pts = F64.speedup_points naive_algo data algo.
Proof.
  unfold F64.speedup_result.
  rewrite list_elem_of_fmap. setoid_rewrite list_elem_of_filter.
  setoid_rewrite elem_of_unique. setoid_rewrite list_elem_of_fmap. split.
  - intros (a & Heq & Hne & x & -> & Hx). simplify_eq. eauto.
  - intros (Hne & (x & Hx & <-) & ->). eauto 10.
Qed.

Lemma f64_speedup_result_algorithms naive_algo (data : list F64.speedup_row) :
  (F64.speedup_result naive_algo data).*1
  = filter (λ algo, algo ≠ naive_algo) (Pd.unique (F64.sr_Algorithm <$> data)).
Proof.
  unfold F64.speedup_result. rewrite <-list_fmap_compose.
  rewrite <-(list_fmap_id (filter _ _)) at 2. by apply list_fmap_ext.
Qed.

Lemma f64_observations_nonempty df dimension dist algo size :
  F64.observations df dimension dist algo size ≠ [] ↔
  ∃ r, r ∈ df ∧ F64.Algorithm r = algo ∧ F64.Dimension r = dimension
       ∧ F64.Size r = size ∧ F64.Distribution r = dist.
Proof.
  unfold F64.observations. split.
  - intros Hne.
    destruct (filter _ df) as [|r l] eqn:Hf; [done|].
    assert (r ∈ filter (λ r, F64.Algorithm r = algo
              ∧ F64.Dimension r = dimension
              ∧ F64.Size r = size ∧ F64.Distribution r = dist) df) as Hr
      by (rewrite Hf; apply list_elem_of_here).
    apply list_elem_of_filter in Hr as [Hc Hr]. eauto.
  - intros (r & Hr & Hc) Hnil. apply fmap_nil_inv in Hnil.
    assert (r ∈ filter (λ r, F64.Algorithm r = algo
              ∧ F64.Dimension r = dimension
              ∧ F64.Size r = size ∧ F64.Distribution r = dist) df) as Hin
      by (by apply list_elem_of_filter).
    rewrite Hnil in Hin. by apply not_elem_of_nil in Hin.
Qed.

(** The rows of the grouped table of [plot_relative_speedup] for one
    dimension, group and distribution: one per algorithm of the group and size
    with observations, holding the float64 mean of these. *)
Lemma f64_elem_of_speedup_dist_data (rows : list F64.csv_row)
    (dimension marker dist : string) (x : F64.speedup_row) :
  let df := F64.derive <$> rows in
  x ∈ F64.speedup_dist_data df dimension marker dist ↔
  ∃ a s, x = (a, algorithm_name a, dimension, s, dist,
              F64.mean (F64.observations df dimension dist a s))
    ∧ Py.str_in marker a = true
    ∧ F64.observations df dimension dist a s ≠ [].
Proof.
  intros df.
  unfold F64.speedup_dist_data, F64.speedup_group_data, F64.speedup_grouped.
  rewrite !list_elem_of_filter.
  destruct x as [[[[[a n] d] s] ds] t]. simpl.
  assert (∀ r, r ∈ df → F64.AlgorithmName r = algorithm_name (F64.Algorithm r))
    as Hname.
  { subst df. intros r (c & -> & _)%list_elem_of_fmap. done. }
  split.
  - intros (-> & Hm & -> & Hin).
    apply f64_elem_of_groupby_mean in Hin as [(r & Hr & Hk) ->]. simplify_eq.
    exists (F64.Algorithm r), (F64.Size r). rewrite (Hname r Hr).
    split; [|split; [done|]].
    + do 2 f_equal. unfold F64.observations, Pd.group. f_equal.
      apply filter_ext_elem_of. intros r' Hr'.
      split; [by intros [= -> _ -> -> ->]|].
      intros (Ha & -> & -> & ->). by rewrite (Hname r' Hr'), Ha.
    + apply f64_observations_nonempty. eauto 10.
  - intros (a' & s' & Heq & Hm & Hobs). simplify_eq.
    apply f64_observations_nonempty in Hobs as (r & Hr & <- & <- & <- & <-).
    split; [done|]. split; [done|]. split; [done|].
    apply f64_elem_of_groupby_mean. split.
    + exists r. split; [done|]. by rewrite (Hname r Hr).
    + unfold F64.observations, Pd.group. do 2 f_equal.
      apply filter_ext_elem_of. intros r' Hr'.
      split; [|by intros [= -> _ -> -> ->]].
      intros (Ha & -> & -> & ->). rewrite (Hname r' Hr'), Ha. done.
Qed.

(** The points of the speedup of an algorithm in the figure of one dimension,
    group and distribution, in terms of the observations of the data frame. *)
Lemma f64_elem_of_speedup_points_observations (rows : list F64.csv_row)
    (dimension marker dist naive_algo algo : string) (s : Z)
    (v : F64.float64) :
  let df := F64.derive <$> rows in
  let obs a := F64.observations df dimension dist a s in
  (s, v) ∈ F64.speedup_points naive_algo
             (F64.speedup_dist_data df dimension marker dist) algo ↔
  Py.str_in marker algo = true ∧ Py.str_in marker naive_algo = true
  ∧ obs algo ≠ [] ∧ obs naive_algo ≠ []
  ∧ v = F64.div (F64.mean (obs naive_algo)) (F64.mean (obs algo)).
Proof.
  intros df obs. rewrite f64_elem_of_speedup_points. split.
  - intros (x & y & Hx & Hy & Hax & Hay & Hs & -> & ->).
    apply f64_elem_of_speedup_dist_data in Hx as (a1 & s1 & -> & Hm1 & Ho1).
    apply f64_elem_of_speedup_dist_data in Hy as (a2 & s2 & -> & Hm2 & Ho2).
    simpl in *. subst. done.
  - intros (Hm1 & Hm2 & Ho1 & Ho2 & ->).
    exists (algo, algorithm_name algo, dimension, s, dist, F64.mean (obs algo)),
      (naive_algo, algorithm_name naive_algo, dimension, s, dist,
       F64.mean (obs naive_algo)).
    split; [apply f64_elem_of_speedup_dist_data; by eauto|].
    split; [apply f64_elem_of_speedup_dist_data; by eauto|]. done.
Qed.

(** On 0.3 ms against 0.1 ms the speedup is the float64 quotient of the two
    float64 numbers, 2.9999999999999996 (that is [6755399441055743 * 2^-51]),
    and not 3. *)
Example speedup_of_three_tenths :
  F64.speedup_result "CLOSEST_PAIR_NAIVE"
    (F64.speedup_dist_data (F64.derive <$> F64.three_tenths)
       "TWO_D" "CLOSEST_PAIR" "UNIFORM")
  = [("CLOSEST_PAIR_KDTREE",
      [(100%Z, S754_finite false 6755399441055743 (-51))])]
  ∧ S754_finite false 6755399441055743 (-51) ≠ F64.of_Z 3.
Proof. split; [by vm_compute|by_decide]. Qed.

(** The mean of two measurements of 1e308 ms overflows to [inf]. *)
Example mean_overflows :
  F64.mean [F64.of_Z (10 ^ 308); F64.of_Z (10 ^ 308)] = S754_infinity false.
Proof. by vm_compute. Qed.

(** C1: in the speedup figure of a dimension, group and distribution, the
    result has a value for an algorithm and a size exactly when the algorithm
    is not the baseline and both have observations at that size, and the
    value is the float64 quotient of the mean execution time of the baseline
    by that of the algorithm, each the float64 mean of the observations in
    row order.  On the two rows of the scenario the result is KDTREE at size
    100 with speedup 5.0; on the repeated measurements 10, 20, 60 ms against
    2, 4 ms it is 30/3 = 10.0. *)
Theorem speedup_is_ratio_of_means (rows : list F64.csv_row)
    (dimension marker dist naive_algo algo : string) (s : Z)
    (v : F64.float64) :
  let df := F64.derive <$> rows in
  let obs a := F64.observations df dimension dist a s in
  ((∃ pts,
      (algo, pts) ∈ F64.speedup_result naive_algo
                      (F64.speedup_dist_data df dimension marker dist)
      ∧ (s, v) ∈ pts) ↔
   algo ≠ naive_algo
   ∧ Py.str_in marker algo = true ∧ Py.str_in marker naive_algo = true
   ∧ obs algo ≠ [] ∧ obs naive_algo ≠ []
   ∧ v = F64.div (F64.mean (obs naive_algo)) (F64.mean (obs algo)))
  ∧ F64.speedup_result "CLOSEST_PAIR_NAIVE"
      (F64.speedup_dist_data (F64.derive <$> F64.scenario)
         "TWO_D" "CLOSEST_PAIR" "UNIFORM")
    = [("CLOSEST_PAIR_KDTREE", [(100%Z, F64.of_Z 5)])]
  ∧ F64.mean [F64.of_Z 10; F64.of_Z 20; F64.of_Z 60] = F64.of_Z 30
  ∧ F64.mean [F64.of_Z 2; F64.of_Z 4] = F64.of_Z 3
  ∧ F64.speedup_result "CLOSEST_PAIR_NAIVE"
      (F64.speedup_dist_data (F64.derive <$> F64.repeated)
         "TWO_D" "CLOSEST_PAIR" "UNIFORM")
    = [("CLOSEST_PAIR_KDTREE", [(100%Z, F64.of_Z 10)])].
Proof.
  intros df obs.
  split; [|split; [by vm_compute|split; [by vm_compute|split; by vm_compute]]].
  split.
  - intros (pts & Hres & Hin).
    apply f64_elem_of_speedup_result in Hres as (Hne & _ & ->).
    apply f64_elem_of_speedup_points_observations in Hin. done.
  - intros (Hne & Hrest).
    exists (F64.speedup_points naive_algo
              (F64.speedup_dist_data df dimension marker dist) algo).
    split; [|by apply f64_elem_of_speedup_points_observations].
    apply f64_elem_of_speedup_result. split; [done|]. split; [|done].
    destruct Hrest as (Hm & _ & Ho & _).
    exists (algo, algorithm_name algo, dimension, s, dist, F64.mean (obs algo)).
    split; [|done]. apply f64_elem_of_speedup_dist_data. eauto.
Qed.

(** The theorem on the repeated measurements: the speedup of the KD-tree at
    size 100 is 10.0. *)
Lemma speedup_is_ratio_of_means_witness :
  ∃ pts,
    ("CLOSEST_PAIR_KDTREE", pts)
      ∈ F64.speedup_result "CLOSEST_PAIR_NAIVE"
          (F64.speedup_dist_data (F64.derive <$> F64.repeated)
             "TWO_D" "CLOSEST_PAIR" "UNIFORM")
    ∧ (100%Z, F64.of_Z 10) ∈ pts.
Proof.
  apply (proj1 (speedup_is_ratio_of_means F64.repeated "TWO_D" "CLOSEST_PAIR"
    "UNIFORM" "CLOSEST_PAIR_NAIVE" "CLOSEST_PAIR_KDTREE" 100 (F64.of_Z 10))).
  repeat split; by vm_compute.
Defined.



(** ** Row order *)

Lemma series_max_perm (l1 l2 : list Z) :
  l1 ≡ₚ l2 → Pd.series_max l1 = Pd.series_max l2.
Proof.
  intros Hp. destruct (Pd.series_max l1) as [m|] eqn:H1.
  - symmetry. apply series_max_spec. apply series_max_spec in H1.
    by rewrite <-Hp.
  - destruct l1; [|done]. apply Permutation_nil_l in Hp. by subst.
Qed.

Lemma f64_largest_data_perm (df1 df2 : F64.DataFrame) :
  df1 ≡ₚ df2 → F64.largest_data df1 ≡ₚ F64.largest_data df2.
Proof.
  intros Hp. unfold F64.largest_data.
  rewrite (series_max_perm (F64.Size <$> df1) (F64.Size <$> df2))
    by (by rewrite Hp).
  by rewrite Hp.
Qed.

(** Selecting rows of two tables with the same keys by a condition on the
    key gives two tables with the same keys. *)
Lemma filter_same_keys {K V} (Q : K * V → Prop) `{!∀ x, Decision (Q x)}
    (t1 t2 : list (K * V)) :
  (∀ k v v', Q (k, v) → Q (k, v')) →
  t1.*1 = t2.*1 → (filter Q t1).*1 = (filter Q t2).*1.
Proof.
  intros HQ. revert t2.
  induction t1 as [|[k v] t1 IH]; intros [|[k' v'] t2] Heq; simplify_eq/=;
    [done|].
  rewrite !filter_cons.
  destruct (decide (Q (k', v))) as [Hq|Hq], (decide (Q (k', v'))) as [Hq'|Hq'];
    simpl; [f_equal; by apply IH| | |by apply IH].
  - destruct Hq'. by apply (HQ k' v).
  - destruct Hq. by apply (HQ k' v').
Qed.

Lemma f64_speedup_dist_data_keys (df1 df2 : F64.DataFrame)
    (dimension marker dist : string) :
  df1 ≡ₚ df2 →
  (F64.speedup_dist_data df1 dimension marker dist).*1
  = (F64.speedup_dist_data df2 dimension marker dist).*1.
Proof.
  intros Hp.
  unfold F64.speedup_dist_data, F64.speedup_group_data, F64.speedup_grouped.
  cbv zeta. do 3 (apply filter_same_keys;
    [by intros [[[[a n] d] s] ds] v v'|]).
  by apply f64_groupby_mean_keys_perm.
Qed.

Lemma f64_sr_Algorithm_keys (data : list F64.speedup_row) :
  F64.sr_Algorithm <$> data = (λ '(a, name, dim, size, dist), a) <$> data.*1.
Proof.
  rewrite <-list_fmap_compose. apply list_fmap_ext.
  by intros _ [[[[[a n] d] s] ds] t] _.
Qed.

Lemma f64_speedup_result_same_keys naive_algo (data1 data2 : list F64.speedup_row) :
  data1.*1 = data2.*1 →
  (F64.speedup_result naive_algo data1).*1
  = (F64.speedup_result naive_algo data2).*1.
Proof.
  intros Heq. rewrite !f64_speedup_result_algorithms, !f64_sr_Algorithm_keys.
  by rewrite Heq.
Qed.

Lemma f64_merge_sizes (left1 left2 : list F64.speedup_row)
    (right1 right2 : list (Z * F64.float64)) :
  left1.*1 = left2.*1 → right1.*1 = right2.*1 →
  ((λ '(x, t_naive),
      (F64.sr_Size x, F64.div t_naive (F64.sr_ExecutionTime x)))
     <$> F64.merge_on_size F64.sr_Size left1 right1).*1
  = ((λ '(x, t_naive),
        (F64.sr_Size x, F64.div t_naive (F64.sr_ExecutionTime x)))
       <$> F64.merge_on_size F64.sr_Size left2 right2).*1.
Proof.
  intros Hl Hr. revert left2 Hl. unfold F64.merge_on_size.
  induction left1 as [|[k v] left1 IH]; intros [|[k' v'] left2] Hl;
    simplify_eq/=; [done|].
  destruct k' as [[[[a n] d] s] ds].
  rewrite !fmap_app. f_equal; [|by apply IH].
  rewrite <-!list_fmap_compose.
  rewrite (const_fmap _ (filter _ right1) s) by done.
  rewrite (const_fmap _ (filter _ right2) s) by done.
  f_equal. rewrite <-(length_fmap fst (filter _ right1)).
  rewrite <-(length_fmap fst (filter _ right2)). f_equal.
  apply filter_same_keys; [|done]. by intros s' v1 v2.
Qed.

Lemma f64_speedup_points_same_keys naive_algo
    (data1 data2 : list F64.speedup_row) algo :
  data1.*1 = data2.*1 →
  (F64.speedup_points naive_algo data1 algo).*1
  = (F64.speedup_points naive_algo data2 algo).*1.
Proof.
  intros Heq. unfold F64.speedup_points. cbv zeta. apply f64_merge_sizes.
  - apply filter_same_keys; [|done]. by intros [[[[a n] d] s] ds] v v'.
  - rewrite <-!list_fmap_compose.
    assert (∀ data : list F64.speedup_row,
              fst ∘ (λ x, (F64.sr_Size x, F64.sr_ExecutionTime x)) <$> data
              = (λ '(a, name, dim, size, dist), size) <$> data.*1) as Hsz.
    { intros data. rewrite <-list_fmap_compose. apply list_fmap_ext.
      by intros _ [[[[[a n] d] s] ds] t] _. }
    rewrite !Hsz. f_equal.
    apply filter_same_keys; [|done]. by intros [[[[a n] d] s] ds] v v'.
Qed.

(** C7, as the claim states it, fails: the mean of a group depends on the
    order of its rows.  The float64 mean of 0.1, 0.2 and 2.7 is 1.0, that of
    0.1, 2.7 and 0.2 is 1.0000000000000002 (that is [(2^52 + 1) * 2^-52]); the
    table of the complexity chart, the table that the distribution chart
    pivots and the speedup of the KD-tree all differ between the two orders of
    the same rows. *)
Lemma mean_depends_on_row_order :
  let df1 := F64.derive <$> F64.one_order in
  let df2 := F64.derive <$> F64.other_order in
  let above_one := S754_finite false 4503599627370497 (-52) in
  F64.one_order ≡ₚ F64.other_order
  ∧ F64.complexity_plot_data df1 "TWO_D" "Closest Pair"
    = [("CLOSEST_PAIR_KDTREE", 100%Z, F64.of_Z 1);
       ("CLOSEST_PAIR_NAIVE", 100%Z, F64.of_Z 1)]
  ∧ F64.complexity_plot_data df2 "TWO_D" "Closest Pair"
    = [("CLOSEST_PAIR_KDTREE", 100%Z, F64.of_Z 1);
       ("CLOSEST_PAIR_NAIVE", 100%Z, above_one)]
  ∧ F64.distribution_grouped df1
    = [("CLOSEST_PAIR_KDTREE", "TWO_D", "UNIFORM", F64.of_Z 1);
       ("CLOSEST_PAIR_NAIVE", "TWO_D", "UNIFORM", F64.of_Z 1)]
  ∧ F64.distribution_grouped df2
    = [("CLOSEST_PAIR_KDTREE", "TWO_D", "UNIFORM", F64.of_Z 1);
       ("CLOSEST_PAIR_NAIVE", "TWO_D", "UNIFORM", above_one)]
  ∧ F64.speedup_result "CLOSEST_PAIR_NAIVE"
      (F64.speedup_dist_data df1 "TWO_D" "CLOSEST_PAIR" "UNIFORM")
    = [("CLOSEST_PAIR_KDTREE", [(100%Z, F64.of_Z 1)])]
  ∧ F64.speedup_result "CLOSEST_PAIR_NAIVE"
      (F64.speedup_dist_data df2 "TWO_D" "CLOSEST_PAIR" "UNIFORM")
    = [("CLOSEST_PAIR_KDTREE", [(100%Z, above_one)])]
  ∧ above_one ≠ F64.of_Z 1.
Proof.
  split; [apply perm_skip, perm_swap|].
  repeat split; by vm_compute.
Qed.

(** C7 (amended): on two data frames with the same rows in a different
    order, every table of means has the same groups in the same order, and
    the value of a group is in both the float64 mean of the same
    observations, taken in the order of the rows; the tables are equal when
    the observations of every group come in the same order, in particular when
    no group has two rows.  The filter on the largest size keeps the same
    rows (in the order of its input), the tables of the complexity charts and
    the table that is pivoted have the same keys, and the speedups are given
    for the same algorithms and sizes in the same order. *)
Theorem aggregation_under_row_order (df1 df2 : F64.DataFrame) :
  df1 ≡ₚ df2 →
  (∀ (K : Type) (eqK : EqDecision K) (ordK : Ord K) (lawsK : OrdLaws K)
     (key : F64.row → K) (val : F64.row → F64.float64),
     (F64.groupby_mean key val df1).*1 = (F64.groupby_mean key val df2).*1
     ∧ (∀ k v1 v2,
          (k, v1) ∈ F64.groupby_mean key val df1 →
          (k, v2) ∈ F64.groupby_mean key val df2 →
          v1 = F64.mean (val <$> Pd.group key k df1)
          ∧ v2 = F64.mean (val <$> Pd.group key k df2)
          ∧ val <$> Pd.group key k df1 ≡ₚ val <$> Pd.group key k df2)
     ∧ ((∀ k, val <$> Pd.group key k df1 = val <$> Pd.group key k df2) →
        F64.groupby_mean key val df1 = F64.groupby_mean key val df2)
     ∧ (NoDup (key <$> df1) →
        F64.groupby_mean key val df1 = F64.groupby_mean key val df2))
  ∧ F64.largest_data df1 ≡ₚ F64.largest_data df2
  ∧ (∀ dimension algo_group,
       (F64.complexity_plot_data df1 dimension algo_group).*1
       = (F64.complexity_plot_data df2 dimension algo_group).*1)
  ∧ (F64.distribution_grouped df1).*1 = (F64.distribution_grouped df2).*1
  ∧ (∀ dimension marker dist naive_algo,
       let data1 := F64.speedup_dist_data df1 dimension marker dist in
       let data2 := F64.speedup_dist_data df2 dimension marker dist in
       (F64.speedup_result naive_algo data1).*1
       = (F64.speedup_result naive_algo data2).*1
       ∧ ∀ algo,
           (F64.speedup_points naive_algo data1 algo).*1
           = (F64.speedup_points naive_algo data2 algo).*1).
Proof.
  intros Hp. split; [|split; [|split; [|split]]].
  - intros K eqK ordK lawsK key val. split; [|split; [|split]].
    + by apply f64_groupby_mean_keys_perm.
    + intros k v1 v2 [_ ->]%f64_elem_of_groupby_mean
        [_ ->]%f64_elem_of_groupby_mean.
      split; [done|]. split; [done|].
      by rewrite (group_perm key k _ _ Hp).
    + by apply f64_groupby_mean_same_groups.
    + by apply f64_groupby_mean_single_rows.
  - by apply f64_largest_data_perm.
  - intros dimension algo_group. unfold F64.complexity_plot_data.
    apply f64_groupby_mean_keys_perm. by rewrite Hp.
  - unfold F64.distribution_grouped.
    by apply f64_groupby_mean_keys_perm, f64_largest_data_perm.
  - intros dimension marker dist naive_algo data1 data2.
    pose proof (f64_speedup_dist_data_keys df1 df2 dimension marker dist Hp).
    split; [by apply f64_speedup_result_same_keys|].
    intros algo. by apply f64_speedup_points_same_keys.
Qed.

(** The theorem on the two rows of the scenario and the same rows in reverse
    order: no group has two rows, and the table of the complexity chart is the
    same. *)
Lemma aggregation_under_row_order_witness :
  F64.groupby_mean (λ r, (F64.Algorithm r, F64.Size r)) F64.ExecutionTime
    (F64.derive <$> F64.scenario)
  = F64.groupby_mean (λ r, (F64.Algorithm r, F64.Size r)) F64.ExecutionTime
      (F64.derive <$> reverse F64.scenario).
Proof.
  refine (proj2 (proj2 (proj2 (proj1 (aggregation_under_row_order
    (F64.derive <$> F64.scenario) (F64.derive <$> reverse F64.scenario) _)
    (string * Z)%type _ _ _ (λ r, (F64.Algorithm r, F64.Size r))
    F64.ExecutionTime))) _).
  - apply perm_swap.
  - by_decide.
Defined.
